(** * storage3: the synchronous file API of a bucket

    A shallow embedding of [storage3/_sync/file_api.py]
    (class [SyncBucketActionsMixin]) together with the parts of the Python
    runtime the file relies on: [str] methods, [dict] objects,
    [urllib.parse], the [httpx] response interface and [open].

    Python [str] values are modelled as byte strings (the UTF-8 encoding
    of the text); dictionaries whose iteration order is observable
    ([urlencode]) are association lists, all others are [gmap]s. *)

From Stdlib Require Import Ascii String ZArith.
From stdpp Require Import base option list gmap strings pretty.

Local Open Scope string_scope.
Local Open Scope Z_scope.
Local Open Scope list_scope.

(** ** Python strings *)

Module Py.

(** [c in chars] for a set of characters given as a string. *)
Fixpoint mem (c : ascii) (chars : string) : bool :=
  match chars with
  | EmptyString => false
  | String d rest => if Ascii.eqb c d then true else mem c rest
  end.

(** [s.lstrip(chars)] *)
Fixpoint lstrip (chars : string) (s : string) : string :=
  match s with
  | EmptyString => EmptyString
  | String c rest => if mem c chars then lstrip chars rest else s
  end.

(** [s.partition(c)] for a one-character separator, as an option:
    [Some (before, after)] at the first occurrence, [None] when [c] does
    not occur. *)
Fixpoint split_first (c : ascii) (s : string) : option (string * string) :=
  match s with
  | EmptyString => None
  | String a rest =>
      if Ascii.eqb a c then Some (EmptyString, rest)
      else match split_first c rest with
           | Some (h, t) => Some (String a h, t)
           | None => None
           end
  end.

(** [s.rpartition(c)]: the split at the last occurrence. *)
Fixpoint split_last (c : ascii) (s : string) : option (string * string) :=
  match s with
  | EmptyString => None
  | String a rest =>
      match split_last c rest with
      | Some (h, t) => Some (String a h, t)
      | None => if Ascii.eqb a c then Some (EmptyString, rest) else None
      end
  end.

(** [s.split(c)] *)
Fixpoint split (c : ascii) (s : string) : list string :=
  match s with
  | EmptyString => [EmptyString]
  | String a rest =>
      if Ascii.eqb a c then EmptyString :: split c rest
      else match split c rest with
           | h :: t => String a h :: t
           | [] => [String a EmptyString]
           end
  end.

(** [s.split(c, 1)] *)
Definition split1 (c : ascii) (s : string) : list string :=
  match split_first c s with
  | Some (h, t) => [h; t]
  | None => [s]
  end.

(** [s.rsplit(c, maxsplit=1)] *)
Definition rsplit1 (c : ascii) (s : string) : list string :=
  match split_last c s with
  | Some (h, t) => [h; t]
  | None => [s]
  end.

(** [l[-1]] on a list of strings; [None] is Python's [IndexError]. *)
Definition last_item (l : list string) : option string := last l.

(** [s.replace(a, b)] for single characters. *)
Fixpoint replace (a b : ascii) (s : string) : string :=
  match s with
  | EmptyString => EmptyString
  | String c rest => String (if Ascii.eqb c a then b else c) (replace a b rest)
  end.

(** [s.replace(a, "")] *)
Fixpoint remove (a : ascii) (s : string) : string :=
  match s with
  | EmptyString => EmptyString
  | String c rest => if Ascii.eqb c a then remove a rest else String c (remove a rest)
  end.

(** [sep.join(l)] *)
Fixpoint join (sep : string) (l : list string) : string :=
  match l with
  | [] => EmptyString
  | [x] => x
  | x :: rest => x +:+ sep +:+ join sep rest
  end.

(** [s.startswith(p)] *)
Fixpoint startswith (p s : string) : bool :=
  match p, s with
  | EmptyString, _ => true
  | String a p', String b s' => Ascii.eqb a b && startswith p' s'
  | String _ _, EmptyString => false
  end.

(** Truth value of a [str]: non-empty. *)
Definition truthy_str (s : string) : bool :=
  match s with EmptyString => false | String _ _ => true end.

Definition is_upper (c : ascii) : bool :=
  let n := nat_of_ascii c in (65 <=? n)%nat && (n <=? 90)%nat.
Definition is_lower (c : ascii) : bool :=
  let n := nat_of_ascii c in (97 <=? n)%nat && (n <=? 122)%nat.
Definition is_digit (c : ascii) : bool :=
  let n := nat_of_ascii c in (48 <=? n)%nat && (n <=? 57)%nat.
Definition is_alpha (c : ascii) : bool := is_upper c || is_lower c.

Definition lower_char (c : ascii) : ascii :=
  if is_upper c then ascii_of_nat (nat_of_ascii c + 32) else c.

(** [s.lower()] on ASCII letters. *)
Fixpoint lower (s : string) : string :=
  match s with
  | EmptyString => EmptyString
  | String c rest => String (lower_char c) (lower rest)
  end.

(** [s[:-1]] *)
Fixpoint drop_last (s : string) : string :=
  match s with
  | EmptyString => EmptyString
  | String c EmptyString => EmptyString
  | String c rest => String c (drop_last rest)
  end.

Fixpoint forallb_str (p : ascii -> bool) (s : string) : bool :=
  match s with
  | EmptyString => true
  | String c rest => p c && forallb_str p rest
  end.

End Py.

(** ** JSON values and exceptions *)

(** The values [json.loads] produces. Numbers are integers: no
    property below depends on a fractional number. Objects are finite
    maps, which gives [dict] equality (insensitive to insertion order). *)
#[warning="-register-all"] Inductive json :=
| JNull
| JBool (b : bool)
| JNum (n : Z)
| JStr (s : string)
| JArr (items : list json)
| JObj (fields : gmap string json).

(** Python truth value of a decoded JSON value. *)
Definition truthy (v : json) : bool :=
  match v with
  | JNull => false
  | JBool b => b
  | JNum n => negb (n =? 0)
  | JStr s => Py.truthy_str s
  | JArr l => match l with [] => false | _ => true end
  | JObj o => negb (bool_decide (size o = 0%nat))
  end.

(** The exceptions that can leave the file API. [StorageException] is
    the storage-domain error of [storage3.utils]; its argument is either
    a message or the error dictionary. [HTTPStatusError] is the
    [httpx.HTTPError] that [raise_for_status] raises, [TransportError]
    stands for whatever the client's [request] raises by itself. *)
Inductive exn :=
| StorageException (data : json)
| KeyError (key : string)
| IndexError (msg : string)
| TypeError (msg : string)
| AttributeError (msg : string)
| ValueError (msg : string)
| JSONDecodeError
| HTTPStatusError (status : Z)
| FileNotFoundError (filename : string)
| TransportError (msg : string).

Inductive result (A : Type) :=
| Ok (a : A)
| Raise (e : exn).
Arguments Ok {A} a.
Arguments Raise {A} e.

(** ** urllib.parse

    The functions of CPython 3.11's [urllib/parse.py] that the file API
    calls: [urlparse], [ParseResult.geturl], [parse_qs] and [urlencode],
    each with its default arguments. *)

Module Urllib.

Record ParseResult := {
  scheme : string;
  netloc : string;
  path : string;
  params : string;
  query : string;
  fragment : string;
}.

Definition uses_netloc : list string :=
  [""; "ftp"; "http"; "gopher"; "nntp"; "telnet";
   "imap"; "wais"; "file"; "mms"; "https"; "shttp";
   "snews"; "prospero"; "rtsp"; "rtspu"; "rsync";
   "svn"; "svn+ssh"; "sftp"; "nfs"; "git"; "git+ssh";
   "ws"; "wss"].

Definition uses_params : list string :=
  [""; "ftp"; "hdl"; "prospero"; "http"; "imap";
   "https"; "shttp"; "rtsp"; "rtspu"; "sip"; "sips";
   "mms"; "sftp"; "tel"].

Definition scheme_chars : string :=
  "abcdefghijklmnopqrstuvwxyzABCDEFGHIJKLMNOPQRSTUVWXYZ0123456789+-.".

(** ["".join([chr(i) for i in range(0, 0x20 + 1)])] *)
Definition _WHATWG_C0_CONTROL_OR_SPACE : string :=
  string_of_list_ascii (map ascii_of_nat (seq 0 33)).

(** The tab, carriage return and line feed characters. *)
Definition _UNSAFE_URL_BYTES_TO_REMOVE : list ascii :=
  [ascii_of_nat 9; ascii_of_nat 13; ascii_of_nat 10].

Definition in_list (s : string) (l : list string) : bool :=
  bool_decide (s ∈ l).

Definition is_ascii (c : ascii) : bool := (nat_of_ascii c <? 128)%nat.

(** The longest prefix without a character of [stop], and the rest. *)
Fixpoint span_until (stop : string) (s : string) : string * string :=
  match s with
  | EmptyString => (EmptyString, EmptyString)
  | String c rest =>
      if Py.mem c stop then (EmptyString, s)
      else let '(h, t) := span_until stop rest in (String c h, t)
  end.

(** [_splitnetloc(url, 2)] on a [url] that starts with two slashes. *)
Definition _splitnetloc (url : string) : string * string :=
  match url with
  | String _ (String _ rest) => span_until "/?#" rest
  | _ => (EmptyString, url)
  end.

(** The scheme test of [urlsplit]: a colon at a position [i > 0], an
    ASCII letter first, and only scheme characters before the colon. *)
Definition split_scheme (url : string) : string * string :=
  match Py.split_first ":" url with
  | Some (String c0 _ as pre, post) =>
      if Py.is_alpha c0 && Py.forallb_str (fun c => Py.mem c scheme_chars) pre
      then (Py.lower pre, post)
      else (EmptyString, url)
  | _ => (EmptyString, url)
  end.

(** [_splitparams] *)
Definition _splitparams (url : string) : string * string :=
  match Py.split_last "/" url with
  | Some (dir, base) =>
      match Py.split_first ";" base with
      | Some (b, p) => (dir +:+ "/" +:+ b, p)
      | None => (url, EmptyString)
      end
  | None =>
      match Py.split_first ";" url with
      | Some (b, p) => (b, p)
      | None => (Py.drop_last url, url)
      end
  end.

Section Validation.

(** Two checks of [urlsplit] look into tables of the Python runtime (the
    [ipaddress] parser and Unicode NFKC normalisation). They are taken as
    given: [_check_bracketed_netloc] is consulted only for a network
    location that contains both brackets, [_checknetloc] only for one
    with a non-ASCII character; [false] stands for the [ValueError]. *)
Variable _check_bracketed_netloc : string -> bool.
Variable _checknetloc : string -> bool.

Definition check_brackets (nl : string) : result unit :=
  let lb := Py.mem "[" nl in
  let rb := Py.mem "]" nl in
  if (lb && negb rb) || (rb && negb lb) then Raise (ValueError "Invalid IPv6 URL")
  else if lb && rb then
    if _check_bracketed_netloc nl then Ok tt else Raise (ValueError "Invalid IPv6 URL")
  else Ok tt.

Definition check_nfkc (nl : string) : result unit :=
  if Py.forallb_str is_ascii nl then Ok tt
  else if _checknetloc nl then Ok tt
  else Raise (ValueError "netloc contains invalid characters under NFKC normalization").

(** [urlsplit(url)], as the five components in the order scheme, netloc,
    path, query, fragment. *)
Definition urlsplit (url : string)
    : result (string * string * string * string * string) :=
  let url := Py.lstrip _WHATWG_C0_CONTROL_OR_SPACE url in
  let url := foldl (fun u b => Py.remove b u) url _UNSAFE_URL_BYTES_TO_REMOVE in
  let '(sch, url) := split_scheme url in
  let '(nl, url, checked) :=
    if Py.startswith "//" url
    then let '(n, u) := _splitnetloc url in (n, u, check_brackets n)
    else (EmptyString, url, Ok tt) in
  match checked with
  | Raise e => Raise e
  | Ok _ =>
      let '(url, frag) :=
        match Py.split_first "#" url with
        | Some (u, f) => (u, f)
        | None => (url, EmptyString)
        end in
      let '(url, q) :=
        match Py.split_first "?" url with
        | Some (u, q) => (u, q)
        | None => (url, EmptyString)
        end in
      match check_nfkc nl with
      | Raise e => Raise e
      | Ok _ => Ok (sch, nl, url, q, frag)
      end
  end.

(** [urlparse(url)] *)
Definition urlparse (url : string) : result ParseResult :=
  match urlsplit url with
  | Raise e => Raise e
  | Ok (sch, nl, url, q, frag) =>
      let '(url, par) :=
        if in_list sch uses_params && Py.mem ";" url then _splitparams url
        else (url, EmptyString) in
      Ok {| scheme := sch; netloc := nl; path := url; params := par;
            query := q; fragment := frag |}
  end.

End Validation.

(** [urlunsplit((scheme, netloc, url, query, fragment))] *)
Definition urlunsplit (sch nl url q frag : string) : string :=
  let url :=
    if Py.truthy_str nl
       || (Py.truthy_str sch && in_list sch uses_netloc
           && negb (Py.startswith "//" url))
    then
      let url :=
        if Py.truthy_str url && negb (Py.startswith "/" url)
        then "/" +:+ url else url in
      "//" +:+ nl +:+ url
    else url in
  let url := if Py.truthy_str sch then sch +:+ ":" +:+ url else url in
  let url := if Py.truthy_str q then url +:+ "?" +:+ q else url in
  if Py.truthy_str frag then url +:+ "#" +:+ frag else url.

(** [urlunparse(components)] *)
Definition urlunparse (r : ParseResult) : string :=
  let url :=
    if Py.truthy_str (params r) then path r +:+ ";" +:+ params r else path r in
  urlunsplit (scheme r) (netloc r) url (query r) (fragment r).

(** [ParseResult.geturl()] *)
Definition geturl (r : ParseResult) : string := urlunparse r.

(** *** Percent decoding and [parse_qs] *)

Definition hex_val (c : ascii) : option nat :=
  let n := nat_of_ascii c in
  if Py.is_digit c then Some (n - 48)%nat
  else if (65 <=? n)%nat && (n <=? 70)%nat then Some (n - 55)%nat
  else if (97 <=? n)%nat && (n <=? 102)%nat then Some (n - 87)%nat
  else None.

(** [unquote(s)]: every [%XY] with two hexadecimal digits becomes the
    byte [0xXY]; a percent sign not followed by two such digits is kept.
    A string of this model stands for the UTF-8 encoding of a Python
    [str]. The closing [decode("utf-8", "replace")] gives a well-formed
    byte sequence back as it is; where escapes decode to an ill-formed
    sequence Python substitutes U+FFFD and this function keeps the bytes.
    The two agree on every text that [quote] and [urlencode] produce from
    a [str], which is where the statements below use it. *)
Fixpoint unquote (s : string) : string :=
  match s with
  | EmptyString => EmptyString
  | String c rest =>
      if Ascii.eqb c "%" then
        match rest with
        | String a (String b rest') =>
            match hex_val a, hex_val b with
            | Some x, Some y => String (ascii_of_nat (16 * x + y)) (unquote rest')
            | _, _ => String c (unquote rest)
            end
        | _ => String c (unquote rest)
        end
      else String c (unquote rest)
  end.

(** One field of the query string in [parse_qsl], with
    [keep_blank_values=False] and [strict_parsing=False]. *)
Definition parse_field (name_value : string) : list (string * string) :=
  if negb (Py.truthy_str name_value) then []
  else match Py.split1 "=" name_value with
       | [n; v] =>
           if Py.truthy_str v
           then [(unquote (Py.replace "+" " " n), unquote (Py.replace "+" " " v))]
           else []
       | _ => []
       end.

(** [parse_qsl(qs)] *)
Definition parse_qsl (qs : string) : list (string * string) :=
  let query_args := if Py.truthy_str qs then Py.split "&" qs else [] in
  flat_map parse_field query_args.

(** [parse_qs(qs)] *)
Definition parse_qs (qs : string) : gmap string (list string) :=
  foldl (fun (parsed_result : gmap string (list string)) '(name, value) =>
           match parsed_result !! name with
           | Some vs => <[name := (vs ++ [value])%list]> parsed_result
           | None => <[name := [value]]> parsed_result
           end) ∅ (parse_qsl qs).

(** *** Percent encoding and [urlencode] *)

Definition always_safe (c : ascii) : bool :=
  Py.is_alpha c || Py.is_digit c || Py.mem c "_.-~".

Definition hex_digit (n : nat) : ascii :=
  if (n <? 10)%nat then ascii_of_nat (48 + n) else ascii_of_nat (55 + n).

(** [_Quoter(safe)[b]] *)
Definition quote_byte (safe : string) (c : ascii) : string :=
  if always_safe c || Py.mem c safe then String c EmptyString
  else let n := nat_of_ascii c in
       String "%" (String (hex_digit (n / 16)) (String (hex_digit (n mod 16)) EmptyString)).

(** [quote(s, safe)] *)
Fixpoint quote (safe : string) (s : string) : string :=
  match s with
  | EmptyString => EmptyString
  | String c rest => quote_byte safe c +:+ quote safe rest
  end.

(** [quote_plus(s)] *)
Definition quote_plus (s : string) : string :=
  if negb (Py.mem " " s) then quote "" s
  else Py.replace " " "+" (quote " " s).

End Urllib.

(** ** The runtime: file objects, dictionaries, the client *)

(** A file object: the bytes of the file, the position of the next read
    (the offset [tell()] reports), and whether [close] has been called. *)
Record file_object := {
  fo_data : string;
  fo_pos : nat;
  fo_closed : bool;
}.

(** The [file] argument of the upload methods,
    [Union[BufferedReader, bytes, FileIO, str, Path]]. *)
Inductive payload :=
| FBytes (b : string)
| FReader (h : nat)
| FPath (p : string).

(** The second component of the tuple under ["file"] that is handed to
    the client: the bytes themselves or a file object. *)
Inductive body_source :=
| SrcBytes (b : string)
| SrcFile (h : nat).

(** The file part of a multipart body as it leaves the client. *)
Record multipart := {
  mp_filename : string;
  mp_content : string;
  mp_content_type : string;
}.

(** A request as the transport sends it. *)
Record wire_request := {
  wr_method : string;
  wr_url : string;
  wr_headers : gmap string string;
  wr_json : option json;
  wr_files : option multipart;
}.

(** An [httpx.Response], by what the file API observes of it:
    [status_code], the result of [json()] ([None] when decoding raises)
    and [content]. *)
Record Response := {
  status_code : Z;
  json_body : option json;
  content : string;
}.

(** The state a call can read and change: the file system, the file
    objects and [FileOptions] dictionaries allocated so far (an object is
    identified by its index), and the requests sent. *)
Record world := {
  fs : gmap string string;
  files : list file_object;
  dicts : list (gmap string string);
  sent : list wire_request;
}.

(** Computations that read and change the world and may raise. The
    state survives an exception. *)
Definition M (A : Type) : Type := world -> result A * world.

Definition ret {A} (a : A) : M A := fun w => (Ok a, w).

Definition raise {A} (e : exn) : M A := fun w => (Raise e, w).

Definition bind {A B} (m : M A) (k : A -> M B) : M B :=
  fun w => match m w with
           | (Ok a, w') => k a w'
           | (Raise e, w') => (Raise e, w')
           end.

Definition lift {A} (r : result A) : M A := fun w => (r, w).

Notation "'let*' x ':=' m 'in' k" := (bind m (fun x => k))
  (at level 10, x pattern, m at level 100, k at level 200).

(** [open(p, "rb")] *)
Definition py_open (p : string) : M nat :=
  fun w => match fs w !! p with
           | Some data =>
               (Ok (length (files w)),
                {| fs := fs w;
                   files := files w ++ [{| fo_data := data; fo_pos := 0;
                                           fo_closed := false |}];
                   dicts := dicts w; sent := sent w |})
           | None => (Raise (FileNotFoundError p), w)
           end.

(** A new dictionary object. *)
Definition dict_new (d : gmap string string) : M nat :=
  fun w => (Ok (length (dicts w)),
            {| fs := fs w; files := files w; dicts := dicts w ++ [d]; sent := sent w |}).

(** The current contents of the dictionary object [l]. *)
Definition dict_read (l : nat) : M (gmap string string) :=
  fun w => (Ok (default ∅ (dicts w !! l)), w).

(** [d.get(k)] on the dictionary object [l]. *)
Definition dict_get (l : nat) (k : string) : M (option string) :=
  let* d := dict_read l in ret (d !! k).

(** [d[k] = v] on the dictionary object [l]. *)
Definition dict_set (l : nat) (k v : string) : M unit :=
  fun w => (Ok tt,
            {| fs := fs w; files := files w;
               dicts := alter (insert k v) l (dicts w); sent := sent w |}).

(** [headers.pop(k)] on a dictionary local to the call. *)
Definition dict_pop (d : gmap string string) (k : string)
    : result (string * gmap string string) :=
  match d !! k with
  | Some v => Ok (v, delete k d)
  | None => Raise (KeyError k)
  end.

(** The parent client, [SupaSyncClient]: its base URL, its default
    headers and the transport behind its [request] method. The transport
    answers a request with a response or raises. *)
Record SupaSyncClient := {
  base_url : string;
  headers : gmap string string;
  transport : wire_request -> result Response;
}.

(** A file object after [seek(0)] and reads up to the end of the file. *)
Definition drained (fo : file_object) : file_object :=
  {| fo_data := fo_data fo; fo_pos := String.length (fo_data fo);
     fo_closed := fo_closed fo |}.

(** Reading the body of a file part, as the client does when it encodes
    the multipart body: bytes are taken as they are; a file object is
    rewound to its start and read to its end, so the part holds the whole
    file wherever the position was, and the position is at the end
    afterwards. Rewinding a closed file raises. *)
Definition read_source (src : body_source) : M string :=
  fun w => match src with
           | SrcBytes b => (Ok b, w)
           | SrcFile h =>
               match files w !! h with
               | Some fo =>
                   if fo_closed fo
                   then (Raise (ValueError "I/O operation on closed file"), w)
                   else (Ok (fo_data fo),
                         {| fs := fs w; files := <[h := drained fo]> (files w);
                            dicts := dicts w; sent := sent w |})
               | None => (Raise (ValueError "I/O operation on closed file"), w)
               end
           end.

Definition send (c : SupaSyncClient) (wr : wire_request) : M Response :=
  fun w => (transport c wr,
            {| fs := fs w; files := files w; dicts := dicts w; sent := sent w ++ [wr] |}).

(** [client.request(method, url, headers=..., json=..., files=...)]: the
    file part is read and the request goes to the transport. *)
Definition client_request (c : SupaSyncClient) (method url : string)
    (hdrs : gmap string string) (js : option json)
    (fls : option (string * body_source * string)) : M Response :=
  match fls with
  | None =>
      send c {| wr_method := method; wr_url := url; wr_headers := hdrs;
                wr_json := js; wr_files := None |}
  | Some (filename, src, ctype) =>
      let* data := read_source src in
      send c {| wr_method := method; wr_url := url; wr_headers := hdrs;
                wr_json := js;
                wr_files := Some {| mp_filename := filename; mp_content := data;
                                    mp_content_type := ctype |} |}
  end.

(** [response.is_success]: a status from 200 to 299. *)
Definition is_success (r : Response) : bool :=
  (200 <=? status_code r) && (status_code r <=? 299).

(** [response.raise_for_status()] *)
Definition raise_for_status (r : Response) : result unit :=
  if is_success r then Ok tt else Raise (HTTPStatusError (status_code r)).

(** [response.json()] *)
Definition response_json (r : Response) : result json :=
  match json_body r with
  | Some v => Ok v
  | None => Raise JSONDecodeError
  end.

(** [v[k]] for a string key [k] on a decoded JSON value. *)
Definition subscript (v : json) (k : string) : result json :=
  match v with
  | JObj o => match o !! k with
              | Some x => Ok x
              | None => Raise (KeyError k)
              end
  | JArr _ => Raise (TypeError "list indices must be integers or slices, not str")
  | JStr _ => Raise (TypeError "string indices must be integers")
  | _ => Raise (TypeError "object is not subscriptable")
  end.

(** Values of option dictionaries that end up in a query string. *)
Inductive scalar :=
| SNone
| SBool (b : bool)
| SInt (n : Z)
| SStr (s : string).

Definition truthy_scalar (v : scalar) : bool :=
  match v with
  | SNone => false
  | SBool b => b
  | SInt n => negb (n =? 0)
  | SStr s => Py.truthy_str s
  end.

(** [str(v)] *)
Definition py_str (v : scalar) : string :=
  match v with
  | SNone => "None"
  | SBool true => "True"
  | SBool false => "False"
  | SInt n => pretty n
  | SStr s => s
  end.

(** [options.get(k)] on an insertion-ordered dictionary. *)
Fixpoint assoc_get (k : string) (options : list (string * scalar)) : option scalar :=
  match options with
  | [] => None
  | (k', v) :: rest => if String.eqb k k' then Some v else assoc_get k rest
  end.

(** [urllib.parse.urlencode(options)] *)
Definition urlencode (options : list (string * scalar)) : string :=
  Py.join "&" (map (fun '(k, v) => Urllib.quote_plus k +:+ "=" +:+ Urllib.quote_plus (py_str v))
                   options).

(** ** The file API: [SyncBucketActionsMixin] *)

(** What [file_api.py] takes from outside itself: the two dictionaries it
    imports from [storage3.constants], and the two validation tables of
    [urllib.parse]. *)
Record environment := {
  DEFAULT_FILE_OPTIONS : gmap string string;
  DEFAULT_SEARCH_OPTIONS : gmap string json;
  check_bracketed_netloc : string -> bool;
  checknetloc : string -> bool;
}.

(** [SyncBucketProxy]: the fields of a bucket that the mixin uses. *)
Record bucket := {
  id : string;
  _client : SupaSyncClient;
}.

(** The [SignedUploadURL] dictionary. *)
Record SignedUploadURL := {
  signed_url : string;
  token : string;
  path : string;
}.

Section FileApi.

Context (E : environment).

(** [{**body, "statusCode": status}] *)
Definition error_data (body : json) (status : Z) : result json :=
  match body with
  | JObj o => Ok (JObj (<["statusCode" := JNum status]> o))
  | _ => Raise (TypeError "object is not a mapping")
  end.

Definition _request (self : bucket) (method url : string)
    (hdrs : option (gmap string string)) (js : option json)
    (fls : option (string * body_source * string)) : M Response :=
  let* response := client_request (_client self) method url (default ∅ hdrs) js fls in
  match raise_for_status response with
  | Ok _ => ret response
  | Raise (HTTPStatusError _) =>
      (* except HTTPError *)
      let* body := lift (response_json response) in
      let* data := lift (error_data body (status_code response)) in
      raise (StorageException data)
  | Raise e => raise e
  end.

Definition _get_final_path (self : bucket) (path : string) : string :=
  id self +:+ "/" +:+ path.

(** [str(base_url) + v] *)
Definition concat_str (base : string) (v : json) : result string :=
  match v with
  | JStr u => Ok (base +:+ u)
  | _ => Raise (TypeError "can only concatenate str to str")
  end.

Definition create_signed_upload_url (self : bucket) (path : string)
    : M SignedUploadURL :=
  let _path := _get_final_path self path in
  let* response := _request self "POST" ("/object/upload/sign/" +:+ _path) None None None in
  let* data := lift (response_json response) in
  let* url := lift (subscript data "url") in
  let* joined := lift (concat_str (base_url (_client self)) url) in
  let* full_url :=
    lift (Urllib.urlparse (check_bracketed_netloc E) (checknetloc E) joined) in
  let query_params := Urllib.parse_qs (Urllib.query full_url) in
  match query_params !! "token" with
  | Some (tok :: _) =>
      ret {| signed_url := Urllib.geturl full_url; token := tok; path := path |}
  | _ => raise (StorageException (JStr "No token sent by the API"))
  end.

(** [file_options.get("cache-control")] is true: present and non-empty. *)
Definition truthy_opt (v : option string) : bool :=
  match v with
  | Some s => Py.truthy_str s
  | None => false
  end.

(** [l[-1]] or [IndexError]. *)
Definition index_last (l : list string) : result string :=
  match Py.last_item l with
  | Some x => Ok x
  | None => Raise (IndexError "list index out of range")
  end.

Definition upload_to_signed_url (self : bucket) (path token : string)
    (file : payload) (file_options : option nat) : M Response :=
  let _path := _get_final_path self path in
  let* _url :=
    lift (Urllib.urlparse (check_bracketed_netloc E) (checknetloc E)
            ("/object/upload/sign/" +:+ _path)) in
  let query_params := urlencode [("token", SStr token)] in
  let final_url := Urllib.geturl _url +:+ "?" +:+ query_params in
  let* file_options :=
    match file_options with
    | None => dict_new ∅
    | Some l => ret l
    end in
  let* cache_control := dict_get file_options "cache-control" in
  let* _ :=
    if truthy_opt cache_control
    then dict_set file_options "cache-control" ("max-age=" +:+ default "" cache_control)
    else ret tt in
  let* opts := dict_read file_options in
  (* {**self._client.headers, **DEFAULT_FILE_OPTIONS, **file_options}:
     the union of finite maps prefers its left operand *)
  let hdrs := opts ∪ (DEFAULT_FILE_OPTIONS E ∪ headers (_client self)) in
  let* filename := lift (index_last (Py.rsplit1 "/" path)) in
  let* (_file, hdrs) :=
    match file with
    | FBytes b =>
        (* bytes or byte-stream-like object received *)
        let* (ctype, hdrs) := lift (dict_pop hdrs "content-type") in
        ret ((filename, SrcBytes b, ctype), hdrs)
    | FReader f =>
        let* (ctype, hdrs) := lift (dict_pop hdrs "content-type") in
        ret ((filename, SrcFile f, ctype), hdrs)
    | FPath p =>
        (* str or pathlib.path received *)
        let* h := py_open p in
        let* (ctype, hdrs) := lift (dict_pop hdrs "content-type") in
        ret ((filename, SrcFile h, ctype), hdrs)
    end in
  _request self "PUT" final_url (Some hdrs) None (Some _file).

Definition upload (self : bucket) (path : string)
    (file : payload) (file_options : option nat) : M Response :=
  let* file_options :=
    match file_options with
    | None => dict_new ∅
    | Some l => ret l
    end in
  let* cache_control := dict_get file_options "cache-control" in
  let* _ :=
    if truthy_opt cache_control
    then dict_set file_options "cache-control" ("max-age=" +:+ default "" cache_control)
    else ret tt in
  let* opts := dict_read file_options in
  let hdrs := opts ∪ (DEFAULT_FILE_OPTIONS E ∪ headers (_client self)) in
  let* filename := lift (index_last (Py.rsplit1 "/" path)) in
  let* (files, hdrs) :=
    match file with
    | FBytes b =>
        (* bytes or byte-stream-like object received *)
        let* (ctype, hdrs) := lift (dict_pop hdrs "content-type") in
        ret ((filename, SrcBytes b, ctype), hdrs)
    | FReader f =>
        let* (ctype, hdrs) := lift (dict_pop hdrs "content-type") in
        ret ((filename, SrcFile f, ctype), hdrs)
    | FPath p =>
        (* str or pathlib.path received *)
        let* h := py_open p in
        let* (ctype, hdrs) := lift (dict_pop hdrs "content-type") in
        ret ((filename, SrcFile h, ctype), hdrs)
    end in
  let _path := _get_final_path self path in
  _request self "POST" ("/object/" +:+ _path) (Some hdrs) None (Some files).

(** The body of the two signing requests: [expiresIn], plus each of the
    listed options that is present with a true value. *)
Definition sign_body (base : gmap string json) (keys : list string)
    (options : gmap string json) : gmap string json :=
  foldl (fun (js : gmap string json) k =>
           match options !! k with
           | Some v => if truthy v then <[k := v]> js else js
           | None => js
           end) base keys.

(** [item["signedURL"] = f"{base_url}{item['signedURL'].lstrip('/')}"] *)
Definition absolute_signed_url (self : bucket) (item : json) : result json :=
  match subscript item "signedURL" with
  | Raise e => Raise e
  | Ok (JStr u) =>
      match item with
      | JObj o =>
          Ok (JObj (<["signedURL" := JStr (base_url (_client self) +:+ Py.lstrip "/" u)]> o))
      | _ => Raise (TypeError "object does not support item assignment")
      end
  | Ok _ => Raise (AttributeError "object has no attribute 'lstrip'")
  end.

Definition create_signed_url (self : bucket) (path : string) (expires_in : Z)
    (options : gmap string json) : M json :=
  let js := sign_body {["expiresIn" := JStr (pretty expires_in)]}
                      ["download"; "transform"] options in
  let path := _get_final_path self path in
  let* response :=
    _request self "POST" ("/object/sign/" +:+ path) None (Some (JObj js)) None in
  let* data := lift (response_json response) in
  lift (absolute_signed_url self data).

(** The loop [for item in data: item["signedURL"] = ...]. *)
Fixpoint rewrite_items (self : bucket) (items : list json) : result (list json) :=
  match items with
  | [] => Ok []
  | item :: rest =>
      match absolute_signed_url self item with
      | Raise e => Raise e
      | Ok item' =>
          match rewrite_items self rest with
          | Raise e => Raise e
          | Ok rest' => Ok (item' :: rest')
          end
      end
  end.

(** The loop over whatever [response.json()] returned: a list is
    rewritten item by item, an empty dictionary or string has nothing to
    iterate over, a non-empty one yields strings, which have no string
    index, and the other values are not iterable. *)
Definition rewrite_data (self : bucket) (data : json) : result json :=
  match data with
  | JArr items =>
      match rewrite_items self items with
      | Ok items' => Ok (JArr items')
      | Raise e => Raise e
      end
  | JObj _ | JStr _ =>
      if truthy data then Raise (TypeError "string indices must be integers")
      else Ok data
  | _ => Raise (TypeError "object is not iterable")
  end.

Definition create_signed_urls (self : bucket) (paths : list string)
    (expires_in : Z) (options : gmap string json) : M json :=
  let js := sign_body {["paths" := JArr (JStr <$> paths);
                        "expiresIn" := JStr (pretty expires_in)]}
                      ["download"] options in
  let* response :=
    _request self "POST" ("/object/sign/" +:+ id self) None (Some (JObj js)) None in
  let* data := lift (response_json response) in
  lift (rewrite_data self data).

Definition transform_requested (options : list (string * scalar)) : bool :=
  match assoc_get "transform" options with
  | Some v => truthy_scalar v
  | None => false
  end.

Definition query_string (options : list (string * scalar)) : string :=
  let transformation_query := urlencode options in
  if Py.truthy_str transformation_query then "?" +:+ transformation_query else "".

Definition get_public_url (self : bucket) (path : string)
    (options : list (string * scalar)) : string :=
  let render_path := if transform_requested options then "render/image" else "object" in
  let _path := _get_final_path self path in
  base_url (_client self) +:+ render_path +:+ "/public/" +:+ _path
    +:+ query_string options.

Definition move (self : bucket) (from_path to_path : string) : M json :=
  let* res :=
    _request self "POST" "/object/move" None
      (Some (JObj {["bucketId" := JStr (id self);
                    "sourceKey" := JStr from_path;
                    "destinationKey" := JStr to_path]})) None in
  lift (response_json res).

Definition copy (self : bucket) (from_path to_path : string) : M json :=
  let* res :=
    _request self "POST" "/object/copy" None
      (Some (JObj {["bucketId" := JStr (id self);
                    "sourceKey" := JStr from_path;
                    "destinationKey" := JStr to_path]})) None in
  lift (response_json res).

Definition remove (self : bucket) (paths : list string) : M json :=
  let* response :=
    _request self "DELETE" ("/object/" +:+ id self) None
      (Some (JObj {["prefixes" := JArr (JStr <$> paths)]})) None in
  lift (response_json response).

Definition list_ (self : bucket) (path : option string)
    (options : option (gmap string json)) : M json :=
  let extra_options := default ∅ options in
  let extra_headers : gmap string string := {["Content-Type" := "application/json"]} in
  let body := <["prefix" := JStr (default "" path)]>
                (extra_options ∪ DEFAULT_SEARCH_OPTIONS E) in
  let* response :=
    _request self "POST" ("/object/list/" +:+ id self) (Some extra_headers)
      (Some (JObj body)) None in
  lift (response_json response).

Definition download (self : bucket) (path : string)
    (options : list (string * scalar)) : M string :=
  let render_path :=
    if transform_requested options then "render/image/authenticated" else "object" in
  let _path := _get_final_path self path in
  let* response :=
    _request self "GET" (render_path +:+ "/" +:+ _path +:+ query_string options)
      None None None in
  ret (content response).

(** Every method of the mixin that talks to the service, as one type of
    calls, and what a call returns. *)
Inductive operation :=
| CreateSignedUploadUrl (path : string)
| UploadToSignedUrl (path token : string) (file : payload) (file_options : option nat)
| CreateSignedUrl (path : string) (expires_in : Z) (options : gmap string json)
| CreateSignedUrls (paths : list string) (expires_in : Z) (options : gmap string json)
| Move (from_path to_path : string)
| Copy (from_path to_path : string)
| Remove (paths : list string)
| List (path : option string) (options : option (gmap string json))
| Download (path : string) (options : list (string * scalar))
| Upload (path : string) (file : payload) (file_options : option nat).

Inductive outcome :=
| OSigned (u : SignedUploadURL)
| OResponse (r : Response)
| OJson (v : json)
| OBytes (b : string).

Definition fmapM {A B} (f : A -> B) (m : M A) : M B :=
  let* a := m in ret (f a).

Definition run (self : bucket) (op : operation) : M outcome :=
  match op with
  | CreateSignedUploadUrl p => fmapM OSigned (create_signed_upload_url self p)
  | UploadToSignedUrl p t f o => fmapM OResponse (upload_to_signed_url self p t f o)
  | CreateSignedUrl p e o => fmapM OJson (create_signed_url self p e o)
  | CreateSignedUrls ps e o => fmapM OJson (create_signed_urls self ps e o)
  | Move a b => fmapM OJson (move self a b)
  | Copy a b => fmapM OJson (copy self a b)
  | Remove ps => fmapM OJson (remove self ps)
  | List p o => fmapM OJson (list_ self p o)
  | Download p o => fmapM OBytes (download self p o)
  | Upload p f o => fmapM OResponse (upload self p f o)
  end.

End FileApi.

(** ** A sample configuration

    Concrete values for the runs further down: the defaults in the shape
    the constants module gives them, validation tables that accept every
    host, and a client at [https://x/] whose transport answers every
    request with a given response. *)

Definition sample_env : environment :=
  {| DEFAULT_FILE_OPTIONS :=
       {["cache-control" := "3600";
         "content-type" := "text/plain;charset=UTF-8";
         "x-upsert" := "false"]};
     DEFAULT_SEARCH_OPTIONS :=
       {["limit" := JNum 100; "offset" := JNum 0]};
     check_bracketed_netloc := fun _ => true;
     checknetloc := fun _ => true |}.

Definition answering (r : Response) : SupaSyncClient :=
  {| base_url := "https://x/";
     headers := {["authorization" := "Bearer k"]};
     transport := fun _ => Ok r |}.

Definition sample_bucket (r : Response) : bucket :=
  {| id := "b"; _client := answering r |}.

Definition ok_response (body : json) : Response :=
  {| status_code := 200; json_body := Some body; content := "" |}.

Definition empty_world : world :=
  {| fs := ∅; files := []; dicts := []; sent := [] |}.

(** A world with one file on disk and two option dictionaries of the
    caller: number 0 asks for a cache lifetime, number 1 has an empty
    [cache-control]. *)
Definition sample_world : world :=
  {| fs := {["/tmp/a.txt" := "hello"]};
     files := [];
     dicts := [{["cache-control" := "3600"; "x-upsert" := "true"]};
               {["cache-control" := ""]}];
     sent := [] |}.

Definition failing_response (status : Z) (body : option json) : Response :=
  {| status_code := status; json_body := body; content := "" |}.


(** ** Vocabulary of the statements *)

(** What [_request] makes of the transport's answer. *)
Definition check_status (r : Response) : result Response :=
  if is_success r then Ok r
  else match response_json r with
       | Raise e => Raise e
       | Ok body =>
           match error_data body (status_code r) with
           | Raise e => Raise e
           | Ok data => Raise (StorageException data)
           end
       end.

Definition answer (c : SupaSyncClient) (wr : wire_request) : result Response :=
  match transport c wr with
  | Ok r => check_status r
  | Raise e => Raise e
  end.

(** The world after one more request. *)
Definition logged (wr : wire_request) (w : world) : world :=
  {| fs := fs w; files := files w; dicts := dicts w; sent := sent w ++ [wr] |}.

(** The caller's options after the cache-control rewrite. *)
Definition rewritten (d : gmap string string) : gmap string string :=
  match d !! "cache-control" with
  | Some v => if Py.truthy_str v then <["cache-control" := "max-age=" +:+ v]> d else d
  | None => d
  end.

(** The three layers of headers, the later over the earlier. *)
Definition merged (E : environment) (self : bucket) (opts : gmap string string)
    : gmap string string :=
  opts ∪ (DEFAULT_FILE_OPTIONS E ∪ headers (_client self)).

(** The options a call works on: the caller's dictionary, or a new empty
    one. *)
Definition options_of (file_options : option nat) (w : world) : gmap string string :=
  match file_options with
  | Some l => default ∅ (dicts w !! l)
  | None => ∅
  end.

(** [name] is what follows the last slash of [p], or all of [p]. *)
Definition final_segment (p name : string) : Prop :=
  Py.mem "/" name = false /\ (p = name \/ exists dir, p = dir +:+ "/" +:+ name).

(** The values given to the name [k] in a list of pairs, in order. *)
Definition values_of (k : string) (pairs : list (string * string)) : list string :=
  omap (fun nv => if String.eqb (fst nv) k then Some (snd nv) else None) pairs.

(** The non-empty values of the query parameters named [k], in order
    (a field with an empty value is no parameter for [parse_qsl]). *)
Definition query_values (k : string) (q : string) : list string :=
  values_of k (Urllib.parse_qsl q).

(** The query component of a URL written without scheme and host: the
    text between the first question mark and the first number sign. *)
Definition after_question (s : string) : string :=
  match Py.split_first "?" s with
  | Some (_, q) => q
  | None => ""
  end.

Definition query_of (s : string) : string :=
  match Py.split_first "#" s with
  | Some (u, _) => after_question u
  | None => after_question s
  end.

(** A URL without the tab, carriage return and line feed characters,
    which [urlsplit] drops. *)
Definition clean (u : string) : string :=
  foldl (fun u b => Py.remove b u) u Urllib._UNSAFE_URL_BYTES_TO_REMOVE.

Definition url_query (u : string) : string := query_of (clean u).

(** An item of a signing response and what the rewrite makes of it: the
    same object with [signedURL] replaced by the base URL followed by the
    old value without its leading slashes. *)
Definition made_absolute (self : bucket) (item item' : json) : Prop :=
  exists o u, item = JObj o /\ o !! "signedURL" = Some (JStr u)
    /\ item' = JObj (<["signedURL" := JStr (base_url (_client self) +:+ Py.lstrip "/" u)]> o).

(** *** The two upload methods in closed form

    What [upload] and [upload_to_signed_url] do, written as one
    expression over the initial world; the methods are shown to agree
    with it below. *)

(** The world once the options dictionary exists and its cache-control
    entry has been rewritten. *)
Definition after_options (file_options : option nat) (w : world) : world :=
  match file_options with
  | None =>
      {| fs := fs w; files := files w; dicts := dicts w ++ [∅]; sent := sent w |}
  | Some l =>
      let cache_control := options_of file_options w !! "cache-control" in
      if truthy_opt cache_control
      then {| fs := fs w; files := files w;
              dicts := alter (insert "cache-control" ("max-age=" +:+ default "" cache_control))
                             l (dicts w);
              sent := sent w |}
      else w
  end.

(** The world with one more open file object, at its start. *)
Definition opened (data : string) (w : world) : world :=
  {| fs := fs w;
     files := files w ++ [{| fo_data := data; fo_pos := 0; fo_closed := false |}];
     dicts := dicts w; sent := sent w |}.

(** The world with one more open file object that has been read to its
    end. *)
Definition consumed (data : string) (w : world) : world :=
  {| fs := fs w;
     files := files w ++ [{| fo_data := data; fo_pos := String.length data;
                             fo_closed := false |}];
     dicts := dicts w; sent := sent w |}.

Definition upload_request (method url : string) (hdrs : gmap string string)
    (name data ctype : string) : wire_request :=
  {| wr_method := method; wr_url := url;
     wr_headers := delete "content-type" hdrs;
     wr_json := None;
     wr_files := Some {| mp_filename := name; mp_content := data;
                         mp_content_type := ctype |} |}.

Definition upload_outcome (E : environment) (self : bucket) (method url : string)
    (path : string) (file : payload) (file_options : option nat) (w : world)
    : result Response * world :=
  let w1 := after_options file_options w in
  let hdrs := merged E self (rewritten (options_of file_options w)) in
  match index_last (Py.rsplit1 "/" path) with
  | Raise e => (Raise e, w1)
  | Ok name =>
      let go (src : body_source) (w2 : world) :=
        match hdrs !! "content-type" with
        | None => (Raise (KeyError "content-type"), w2)
        | Some ctype =>
            match read_source src w2 with
            | (Raise e, w3) => (Raise e, w3)
            | (Ok bytes, w3) =>
                let wr := upload_request method url hdrs name bytes ctype in
                (answer (_client self) wr, logged wr w3)
            end
        end in
      match file with
      | FBytes b => go (SrcBytes b) w1
      | FReader h => go (SrcFile h) w1
      | FPath p =>
          match fs w !! p with
          | None => (Raise (FileNotFoundError p), w1)
          | Some data => go (SrcFile (length (files w1))) (opened data w1)
          end
      end
  end.

(** The target of [upload_to_signed_url]. *)
Definition signed_upload_target (E : environment) (self : bucket)
    (path token : string) : string :=
  match Urllib.urlparse (check_bracketed_netloc E) (checknetloc E)
          ("/object/upload/sign/" +:+ _get_final_path self path) with
  | Ok _url => Urllib.geturl _url +:+ "?" +:+ urlencode [("token", SStr token)]
  | Raise _ => ""
  end.

(** What the file part is read from, seen from the initial world. *)
Definition payload_bytes (file : payload) (fo : option nat) (w : world)
    (data : string) : Prop :=
  match file with
  | FBytes b => data = b
  | FReader h => fst (read_source (SrcFile h) (after_options fo w)) = Ok data
  | FPath p => fs w !! p = Some data
  end.

(** What [create_signed_upload_url] makes of a successful response. *)
Definition signed_upload_result (E : environment) (self : bucket) (path : string)
    (response : Response) : result SignedUploadURL :=
  match response_json response with
  | Raise e => Raise e
  | Ok data =>
      match subscript data "url" with
      | Raise e => Raise e
      | Ok url =>
          match concat_str (base_url (_client self)) url with
          | Raise e => Raise e
          | Ok joined =>
              match Urllib.urlparse (check_bracketed_netloc E) (checknetloc E) joined with
              | Raise e => Raise e
              | Ok full_url =>
                  match Urllib.parse_qs (Urllib.query full_url) !! "token" with
                  | Some (tok :: _) =>
                      Ok {| signed_url := Urllib.geturl full_url; token := tok;
                            path := path |}
                  | _ => Raise (StorageException (JStr "No token sent by the API"))
                  end
              end
          end
      end
  end.

(** The request of [create_signed_upload_url]. *)
Definition signed_upload_request (self : bucket) (path : string) : wire_request :=
  {| wr_method := "POST";
     wr_url := "/object/upload/sign/" +:+ _get_final_path self path;
     wr_headers := ∅; wr_json := None; wr_files := None |}.

(** *** The operations without a file part in closed form *)

Definition result_map {A B} (f : A -> B) (r : result A) : result B :=
  match r with
  | Ok a => Ok (f a)
  | Raise e => Raise e
  end.

(** The request an operation without a file part sends. *)
Definition plain_request (E : environment) (self : bucket) (op : operation)
    : option wire_request :=
  let post url js :=
    Some {| wr_method := "POST"; wr_url := url; wr_headers := ∅;
            wr_json := js; wr_files := None |} in
  match op with
  | CreateSignedUploadUrl p => Some (signed_upload_request self p)
  | CreateSignedUrl p expires_in options =>
      post ("/object/sign/" +:+ _get_final_path self p)
           (Some (JObj (sign_body {["expiresIn" := JStr (pretty expires_in)]}
                                  ["download"; "transform"] options)))
  | CreateSignedUrls paths expires_in options =>
      post ("/object/sign/" +:+ id self)
           (Some (JObj (sign_body {["paths" := JArr (JStr <$> paths);
                                    "expiresIn" := JStr (pretty expires_in)]}
                                  ["download"] options)))
  | Move from_path to_path =>
      post "/object/move"
           (Some (JObj {["bucketId" := JStr (id self);
                         "sourceKey" := JStr from_path;
                         "destinationKey" := JStr to_path]}))
  | Copy from_path to_path =>
      post "/object/copy"
           (Some (JObj {["bucketId" := JStr (id self);
                         "sourceKey" := JStr from_path;
                         "destinationKey" := JStr to_path]}))
  | Remove paths =>
      Some {| wr_method := "DELETE"; wr_url := "/object/" +:+ id self;
              wr_headers := ∅;
              wr_json := Some (JObj {["prefixes" := JArr (JStr <$> paths)]});
              wr_files := None |}
  | List path options =>
      Some {| wr_method := "POST"; wr_url := "/object/list/" +:+ id self;
              wr_headers := {["Content-Type" := "application/json"]};
              wr_json := Some (JObj (<["prefix" := JStr (default "" path)]>
                                       (default ∅ options ∪ DEFAULT_SEARCH_OPTIONS E)));
              wr_files := None |}
  | Download p options =>
      Some {| wr_method := "GET";
              wr_url := (if transform_requested options
                         then "render/image/authenticated" else "object")
                        +:+ "/" +:+ _get_final_path self p +:+ query_string options;
              wr_headers := ∅; wr_json := None; wr_files := None |}
  | UploadToSignedUrl _ _ _ _ | Upload _ _ _ => None
  end.

(** What an operation makes of the response that passed the status
    check. *)
Definition plain_result (E : environment) (self : bucket) (op : operation)
    (r : Response) : result outcome :=
  match op with
  | CreateSignedUploadUrl p => result_map OSigned (signed_upload_result E self p r)
  | CreateSignedUrl _ _ _ =>
      match response_json r with
      | Ok data => result_map OJson (absolute_signed_url self data)
      | Raise e => Raise e
      end
  | CreateSignedUrls _ _ _ =>
      match response_json r with
      | Ok data => result_map OJson (rewrite_data self data)
      | Raise e => Raise e
      end
  | Move _ _ | Copy _ _ | Remove _ | List _ _ => result_map OJson (response_json r)
  | Download _ _ => Ok (OBytes (content r))
  | UploadToSignedUrl _ _ _ _ | Upload _ _ _ => Ok (OResponse r)
  end.

(** The two operations with a file part. *)
Definition is_upload (op : operation) : bool :=
  match op with
  | UploadToSignedUrl _ _ _ _ | Upload _ _ _ => true
  | _ => false
  end.

(** The characters that [urlparse] and [geturl] act on in a rooted path:
    the question mark, the number sign, the semicolon, and the tab,
    carriage return and line feed that are dropped. *)
Definition url_syntax : string :=
  String "?" (String "#" (String ";"
    (string_of_list_ascii Urllib._UNSAFE_URL_BYTES_TO_REMOVE))).

(** A path without any of them. *)
Definition plain (s : string) : bool :=
  Py.forallb_str (fun c => negb (Py.mem c url_syntax)) s.

(** * Properties *)

(** ** Strings *)

Lemma app_cons (a : ascii) (s t : string) : String a s +:+ t = String a (s +:+ t).
Proof. reflexivity. Qed.

Lemma app_empty_l (t : string) : "" +:+ t = t.
Proof. reflexivity. Qed.

Lemma app_empty_r (s : string) : s +:+ "" = s.
Proof. induction s as [|a s IH]; [done|]. by rewrite app_cons, IH. Qed.

Lemma app_assoc_str (s t u : string) : (s +:+ t) +:+ u = s +:+ (t +:+ u).
Proof. induction s as [|a s IH]; [done|]. by rewrite !app_cons, IH. Qed.

Lemma app_length_str (s t : string) :
  String.length (s +:+ t) = (String.length s + String.length t)%nat.
Proof. induction s as [|a s IH]; [done|]. rewrite app_cons. simpl. by rewrite IH. Qed.

Lemma truthy_str_app_r (s t : string) :
  Py.truthy_str t = true -> Py.truthy_str (s +:+ t) = true.
Proof. destruct s; [done|]. by rewrite app_cons. Qed.

Lemma truthy_str_true (s : string) : Py.truthy_str s = true <-> s <> "".
Proof. destruct s; simpl; split; congruence. Qed.

Lemma mem_app (c : ascii) (s t : string) :
  Py.mem c (s +:+ t) = Py.mem c s || Py.mem c t.
Proof.
  induction s as [|a s IH]; [done|].
  rewrite app_cons. simpl. destruct (Ascii.eqb c a); [done|]. apply IH.
Qed.

Lemma split_first_spec (c : ascii) (s h t : string) :
  Py.split_first c s = Some (h, t) -> s = h +:+ String c t /\ Py.mem c h = false.
Proof.
  revert h. induction s as [|a s IH]; intros h; simpl; [done|].
  destruct (Ascii.eqb_spec a c) as [->|Hne].
  - intros [= <- <-]. done.
  - destruct (Py.split_first c s) as [[h' t']|]; [|done].
    intros [= <- <-]. destruct (IH h' eq_refl) as [-> Hh]. split; [done|].
    simpl. destruct (Ascii.eqb_spec c a); [congruence|done].
Qed.

Lemma split_first_none (c : ascii) (s : string) :
  Py.split_first c s = None <-> Py.mem c s = false.
Proof.
  induction s as [|a s IH]; simpl; [done|].
  rewrite (Ascii.eqb_sym c a).
  destruct (Ascii.eqb a c); [done|].
  destruct (Py.split_first c s) as [[h t]|]; split; try done.
  - intros H. apply IH in H. done.
  - intros _. by apply IH.
Qed.

Lemma split_last_spec (c : ascii) (s h t : string) :
  Py.split_last c s = Some (h, t) -> s = h +:+ String c t /\ Py.mem c t = false.
Proof.
  revert h. induction s as [|a s IH]; intros h; simpl; [done|].
  destruct (Py.split_last c s) as [[h' t']|] eqn:Hs.
  - intros [= <- <-]. destruct (IH h' eq_refl) as [-> Ht]. done.
  - destruct (Ascii.eqb_spec a c) as [->|Hne]; [|done].
    intros [= <- <-]. split; [done|].
    clear IH. induction s as [|b s IH]; [done|].
    simpl in Hs |- *. destruct (Py.split_last c s) as [[??]|]; [done|].
    rewrite (Ascii.eqb_sym c b). destruct (Ascii.eqb b c); [done|]. by apply IH.
Qed.

Lemma split_last_none (c : ascii) (s : string) :
  Py.split_last c s = None -> Py.mem c s = false.
Proof.
  induction s as [|a s IH]; simpl; [done|].
  destruct (Py.split_last c s) as [[??]|]; [done|].
  rewrite (Ascii.eqb_sym c a). destruct (Ascii.eqb a c); [done|]. auto.
Qed.

(** The file name of the upload methods is the final segment of the
    relative path, and taking it cannot fail. *)
Lemma index_last_rsplit1 (p : string) :
  exists name, index_last (Py.rsplit1 "/" p) = Ok name /\ final_segment p name.
Proof.
  unfold Py.rsplit1, index_last, Py.last_item, final_segment.
  destruct (Py.split_last "/" p) as [[h t]|] eqn:Hs.
  - apply split_last_spec in Hs as [-> Ht]. exists t. simpl. eauto.
  - apply split_last_none in Hs. exists p. simpl. eauto.
Qed.

(** ** The path resolver *)

(** C4: the path resolution of every file operation is the plain
    concatenation of the bucket id, a slash and the relative path. It is a
    total function of its two inputs (no state, no exception), it keeps
    every character of the path where it was (the length adds up and the
    path can be read back unchanged), so nothing is validated, escaped or
    collapsed. *)
Theorem get_final_path_is_concatenation (self : bucket) (p : string) :
  _get_final_path self p = id self +:+ "/" +:+ p /\
  String.length (_get_final_path self p)
    = (String.length (id self) + 1 + String.length p)%nat /\
  (forall q, _get_final_path self p = _get_final_path self q -> p = q).
Proof.
  unfold _get_final_path. split; [done|]. split.
  - rewrite !app_length_str. simpl. lia.
  - intros q H. apply (inj (String.app (id self))) in H.
    by apply (inj (String.app "/")) in H.
Qed.

(** ** Public URLs *)

Lemma join_cons_truthy (sep x : string) (l : list string) :
  Py.truthy_str x = true -> Py.truthy_str (Py.join sep (x :: l)) = true.
Proof.
  intros Hx. destruct l as [|y l]; simpl; [done|].
  destruct x; [done|]. by rewrite app_cons.
Qed.

Lemma urlencode_nonempty (options : list (string * scalar)) :
  options <> [] -> Py.truthy_str (urlencode options) = true.
Proof.
  destruct options as [|[k v] rest]; [done|]. intros _.
  unfold urlencode. rewrite map_cons. apply join_cons_truthy.
  apply truthy_str_app_r. done.
Qed.

Lemma query_string_cases (options : list (string * scalar)) :
  query_string options
  = match options with
    | [] => ""
    | _ :: _ => "?" +:+ urlencode options
    end.
Proof.
  unfold query_string. destruct options as [|x rest]; [done|].
  by rewrite urlencode_nonempty.
Qed.

Lemma transform_requested_iff (options : list (string * scalar)) :
  transform_requested options = true
  <-> exists v, assoc_get "transform" options = Some v /\ truthy_scalar v = true.
Proof.
  unfold transform_requested.
  destruct (assoc_get "transform" options) as [v|]; split.
  - intros H. by exists v.
  - by intros (v' & [= <-] & H).
  - done.
  - by intros (v' & [=] & _).
Qed.

(** C6, as the code has it: the public URL is the base URL, the endpoint
    segment, the object key and the query string. The query string is
    empty for an empty option set and a question mark followed by the
    encoded options otherwise (which are then not empty). The endpoint is
    [render/image/public] exactly when the options hold a true value
    under [transform], and [object/public] otherwise: a [transform] entry
    that is empty, zero, false or [None] selects [object/public]. *)
Theorem get_public_url_shape (self : bucket) (p : string)
    (options : list (string * scalar)) :
  get_public_url self p options
  = base_url (_client self)
    +:+ (if transform_requested options then "render/image/public/" else "object/public/")
    +:+ id self +:+ "/" +:+ p
    +:+ match options with
        | [] => ""
        | _ :: _ => "?" +:+ urlencode options
        end
  /\ (transform_requested options = true
      <-> exists v, assoc_get "transform" options = Some v /\ truthy_scalar v = true)
  /\ (options <> [] -> urlencode options <> "").
Proof.
  split; [|split].
  - unfold get_public_url, _get_final_path. rewrite query_string_cases.
    destruct (transform_requested options); by rewrite !app_assoc_str.
  - apply transform_requested_iff.
  - intros H. by apply truthy_str_true, urlencode_nonempty.
Qed.

(** C6, as stated, fails: an option set that contains the key
    [transform] with an empty value still gets the [object/public]
    endpoint. *)
Lemma transform_key_alone_keeps_object_endpoint :
  ~ (forall (self : bucket) (p : string) (options : list (string * scalar)),
       (exists v, assoc_get "transform" options = Some v)
       <-> (exists rest, get_public_url self p options
                         = base_url (_client self) +:+ "render/image/public/" +:+ rest)).
Proof.
  intros H.
  destruct (H (sample_bucket (ok_response JNull)) "a.png" [("transform", SStr "")])
    as [Himp _].
  destruct Himp as [rest Hrest]; [by eexists|].
  vm_compute in Hrest. discriminate Hrest.
Qed.

Example public_url_empty_transform :
  get_public_url (sample_bucket (ok_response JNull)) "a.png" [("transform", SStr "")]
  = "https://x/object/public/b/a.png?transform=".
Proof. reflexivity. Qed.

Example public_url_width :
  get_public_url (sample_bucket (ok_response JNull)) "a.png" [("width", SInt 100)]
  = "https://x/object/public/b/a.png?width=100".
Proof. reflexivity. Qed.

Example public_url_transform :
  get_public_url (sample_bucket (ok_response JNull)) "f/a.png"
    [("transform", SBool true); ("resize", SStr "cover fill")]
  = "https://x/render/image/public/b/f/a.png?transform=True&resize=cover+fill".
Proof. reflexivity. Qed.

Example public_url_plain :
  get_public_url (sample_bucket (ok_response JNull)) "a.png" []
  = "https://x/object/public/b/a.png".
Proof. reflexivity. Qed.

(** ** One request, one answer *)

Lemma check_status_cases (r : Response) :
  check_status r
  = if is_success r then Ok r
    else match json_body r with
         | None => Raise JSONDecodeError
         | Some (JObj o) =>
             Raise (StorageException (JObj (<["statusCode" := JNum (status_code r)]> o)))
         | Some _ => Raise (TypeError "object is not a mapping")
         end.
Proof.
  unfold check_status, response_json, error_data.
  unfold raise_for_status. destruct (is_success r); [done|].
  destruct (json_body r) as [[]|]; done.
Qed.

(** A request without a file part always reaches the transport, and its
    outcome is the checked answer. *)
Lemma request_plain (self : bucket) (method url : string)
    (hdrs : option (gmap string string)) (js : option json) (w : world) :
  let wr := {| wr_method := method; wr_url := url; wr_headers := default ∅ hdrs;
               wr_json := js; wr_files := None |} in
  _request self method url hdrs js None w = (answer (_client self) wr, logged wr w).
Proof.
  intros wr. unfold _request, bind, client_request, send, answer, check_status, logged.
  fold wr. destruct (transport (_client self) wr) as [r|e]; [|done].
  unfold raise_for_status. destruct (is_success r); [done|].
  unfold lift, raise. destruct (response_json r) as [body|e]; [|done].
  destruct (error_data body (status_code r)); done.
Qed.

(** A request with a file part first reads the part; if that succeeds the
    request reaches the transport with the bytes read. *)
Lemma request_file (self : bucket) (method url : string)
    (hdrs : option (gmap string string)) (js : option json)
    (filename : string) (src : body_source) (ctype : string) (w : world) :
  _request self method url hdrs js (Some (filename, src, ctype)) w
  = match read_source src w with
    | (Ok data, w') =>
        let wr := {| wr_method := method; wr_url := url; wr_headers := default ∅ hdrs;
                     wr_json := js;
                     wr_files := Some {| mp_filename := filename; mp_content := data;
                                         mp_content_type := ctype |} |} in
        (answer (_client self) wr, logged wr w')
    | (Raise e, w') => (Raise e, w')
    end.
Proof.
  unfold _request, bind, client_request, bind.
  destruct (read_source src w) as [[data|e] w']; [|done].
  unfold send, answer, check_status, logged. simpl.
  match goal with |- context [transport _ ?x] => set (wr := x) end.
  destruct (transport (_client self) wr) as [r|e]; [|done].
  unfold raise_for_status. destruct (is_success r); [done|].
  unfold lift, raise. destruct (response_json r) as [body|e]; [|done].
  destruct (error_data body (status_code r)); done.
Qed.

Lemma logged_sent (wr : wire_request) (w : world) : sent (logged wr w) = sent w ++ [wr].
Proof. done. Qed.

Lemma sent_snoc_inv (l : list wire_request) (a b : wire_request) :
  l ++ [a] = l ++ [b] -> a = b.
Proof. intros H. apply app_inv_head in H. congruence. Qed.

Lemma sent_not_grown (l : list wire_request) (a : wire_request) : l <> l ++ [a].
Proof.
  intros H. apply (f_equal length) in H. rewrite length_app in H. simpl in H. lia.
Qed.

(** ** Batch signing *)

Lemma lstrip_no_leading (c : ascii) (s : string) :
  Py.startswith (String c "") (Py.lstrip (String c "") s) = false.
Proof.
  induction s as [|a s IH]; [done|]. simpl.
  destruct (Ascii.eqb_spec a c) as [->|Hne]; [done|]. simpl.
  destruct (Ascii.eqb_spec c a); [congruence|done].
Qed.

Lemma rewrite_items_ok (self : bucket) (items : list json) :
  Forall (fun item => exists o u, item = JObj o /\ o !! "signedURL" = Some (JStr u)) items ->
  exists items', rewrite_items self items = Ok items'
    /\ Forall2 (made_absolute self) items items'.
Proof.
  induction 1 as [|item items (o & u & -> & Hu) _ (items' & IH & HF)].
  - exists []. by split.
  - eexists. simpl. unfold absolute_signed_url, subscript. rewrite Hu, IH.
    split; [done|]. constructor; [|done]. by exists o, u.
Qed.

Lemma absolute_signed_url_ok (self : bucket) (item v : json) :
  absolute_signed_url self item = Ok v <-> made_absolute self item v.
Proof.
  unfold absolute_signed_url, made_absolute, subscript. split.
  - destruct item as [| | | | |o]; try done.
    destruct (o !! "signedURL") as [[| | |u| |]|] eqn:Hu; try done.
    intros [= <-]. eauto.
  - intros (o & u & -> & Hu & ->). by rewrite Hu.
Qed.

Lemma rewrite_items_iff (self : bucket) (items items' : list json) :
  rewrite_items self items = Ok items' <-> Forall2 (made_absolute self) items items'.
Proof.
  revert items'. induction items as [|item rest IH]; intros items'; simpl.
  - split; [intros [= <-]; constructor|by intros ->%Forall2_nil_inv_l].
  - split.
    + destruct (absolute_signed_url self item) as [v|e] eqn:Hv; [|done].
      destruct (rewrite_items self rest) as [rest'|e]; [|done].
      intros [= <-]. constructor; [by apply absolute_signed_url_ok|by apply IH].
    + intros (v & rest' & Hv & Hrest & ->)%Forall2_cons_inv_l.
      apply absolute_signed_url_ok in Hv. rewrite Hv.
      apply IH in Hrest. by rewrite Hrest.
Qed.

Lemma create_signed_urls_run (self : bucket) (paths : list string)
    (expires_in : Z) (options : gmap string json) (w : world) :
  let wr := {| wr_method := "POST"; wr_url := "/object/sign/" +:+ id self;
               wr_headers := ∅;
               wr_json := Some (JObj (sign_body
                            {["paths" := JArr (JStr <$> paths);
                              "expiresIn" := JStr (pretty expires_in)]}
                            ["download"] options));
               wr_files := None |} in
  create_signed_urls self paths expires_in options w
  = (match answer (_client self) wr with
     | Ok r => match response_json r with
               | Ok data => rewrite_data self data
               | Raise e => Raise e
               end
     | Raise e => Raise e
     end, logged wr w).
Proof.
  intros wr. unfold create_signed_urls, bind. rewrite request_plain.
  cbn [from_option]. fold wr.
  destruct (answer (_client self) wr) as [r|e]; [|done].
  unfold lift. by destruct (response_json r).
Qed.

(** C7, as the code has it: when the batch-signing request is answered
    successfully with an array of items that each are an object with a
    string under [signedURL], the call returns an array of the same
    length in which item [i] is item [i] of the response with [signedURL]
    replaced by the base URL followed by the old value stripped of its
    leading slashes; every other field of the item is as it was. This
    holds for every batch of paths (the empty one included). When some
    item of the array is not such an object, the call raises and returns
    no item at all. *)
Theorem create_signed_urls_rewrites_every_item (self : bucket) (paths : list string)
    (expires_in : Z) (options : gmap string json) (w : world)
    (wr : wire_request) (r : Response) (items : list json) :
  sent (create_signed_urls self paths expires_in options w).2 = sent w ++ [wr] ->
  transport (_client self) wr = Ok r ->
  is_success r = true ->
  json_body r = Some (JArr items) ->
  let signed item := exists o u, item = JObj o /\ o !! "signedURL" = Some (JStr u) in
  (Forall signed items ->
   exists items',
     (create_signed_urls self paths expires_in options w).1 = Ok (JArr items')
     /\ length items' = length items
     /\ forall i o u,
          items !! i = Some (JObj o) -> o !! "signedURL" = Some (JStr u) ->
          exists o',
            items' !! i = Some (JObj o')
            /\ o' !! "signedURL"
               = Some (JStr (base_url (_client self) +:+ Py.lstrip "/" u))
            /\ Py.startswith "/" (Py.lstrip "/" u) = false
            /\ forall k, k <> "signedURL" -> o' !! k = o !! k)
  /\ (~ Forall signed items ->
      exists e, (create_signed_urls self paths expires_in options w).1 = Raise e).
Proof.
  intros Hsent Hwr Hok Hbody signed.
  rewrite create_signed_urls_run in Hsent |- *. simpl in Hsent |- *.
  apply sent_snoc_inv in Hsent. subst wr.
  unfold answer. rewrite Hwr, check_status_cases, Hok.
  unfold response_json. rewrite Hbody. simpl. split.
  - intros Hitems.
    destruct (rewrite_items_ok self items Hitems) as (items' & -> & HF).
    exists items'. split; [done|]. split.
    + symmetry. by eapply Forall2_length.
    + intros i o u Hi Hu.
      destruct (Forall2_lookup_l _ _ _ _ _ HF Hi)
        as (item' & Hi' & o0 & u0 & [= <-] & Hu0 & ->).
      rewrite Hu in Hu0. injection Hu0 as <-.
      eexists. split; [exact Hi'|]. split; [by rewrite lookup_insert_eq|].
      split; [apply lstrip_no_leading|].
      intros k Hk. by rewrite lookup_insert_ne.
  - intros Hnot. destruct (rewrite_items self items) as [items'|e] eqn:Hr; [|eauto].
    exfalso. apply Hnot. apply rewrite_items_iff in Hr. clear -Hr.
    induction Hr as [|item item' rest rest' (o & u & -> & Hu & _) _ IH].
    + constructor.
    + constructor; [by exists o, u|done].
Qed.

(** A batch of two: one relative URL with a leading slash, one without. *)
Lemma create_signed_urls_rewrites_every_item_sample :
  exists items',
    (create_signed_urls
       (sample_bucket (ok_response (JArr
          [JObj {["signedURL" := JStr "/object/sign/b/a.png?token=t1"; "path" := JStr "a.png"]};
           JObj {["signedURL" := JStr "object/sign/b/c.png?token=t2"; "error" := JNull]}])))
       ["a.png"; "c.png"] 60 ∅ empty_world).1 = Ok (JArr items')
    /\ items' !! 0%nat
       = Some (JObj {["signedURL" := JStr "https://x/object/sign/b/a.png?token=t1";
                      "path" := JStr "a.png"]})
    /\ items' !! 1%nat
       = Some (JObj {["signedURL" := JStr "https://x/object/sign/b/c.png?token=t2";
                      "error" := JNull]}).
Proof.
  set (body := JArr _).
  edestruct (create_signed_urls_rewrites_every_item
               (sample_bucket (ok_response body)) ["a.png"; "c.png"] 60 ∅ empty_world)
    as [Hall _].
  - reflexivity.
  - reflexivity.
  - reflexivity.
  - reflexivity.
  - destruct Hall as (items' & Hrun & _ & _).
    + repeat constructor; eexists _, _; split; reflexivity.
    + exists items'. split; [exact Hrun|].
      vm_compute in Hrun. injection Hrun as <-. split; reflexivity.
Defined.

(** C7, as stated, fails: the response array may hold an item whose
    [signedURL] is null (the answer for a path that could not be signed);
    the loop has no guard for it, the call raises, and no item is
    rewritten. *)
Lemma unsigned_item_is_not_rewritten :
  ~ (forall (self : bucket) (paths : list string) (expires_in : Z)
            (options : gmap string json) (w : world) (wr : wire_request)
            (r : Response) (items : list json),
       paths <> [] ->
       sent (create_signed_urls self paths expires_in options w).2 = sent w ++ [wr] ->
       transport (_client self) wr = Ok r ->
       is_success r = true ->
       json_body r = Some (JArr items) ->
       exists items',
         (create_signed_urls self paths expires_in options w).1 = Ok (JArr items')
         /\ length items' = length items
         /\ forall i o,
              items !! i = Some (JObj o) ->
              exists o' u',
                items' !! i = Some (JObj o')
                /\ o' !! "signedURL" = Some (JStr (base_url (_client self) +:+ u'))
                /\ forall k, k <> "signedURL" -> o' !! k = o !! k).
Proof.
  intros H.
  edestruct (H (sample_bucket (ok_response (JArr
                  [JObj {["signedURL" := JNull; "path" := JStr "gone.png";
                          "error" := JStr "Either the object does not exist or you do not have access to it"]}])))
               ["gone.png"] 60 ∅ empty_world)
    as (items' & Hrun & _).
  - discriminate.
  - reflexivity.
  - reflexivity.
  - reflexivity.
  - reflexivity.
  - vm_compute in Hrun. discriminate Hrun.
Qed.

(** ** The upload methods *)

Lemma after_options_frame (fo : option nat) (w : world) :
  fs (after_options fo w) = fs w
  /\ files (after_options fo w) = files w
  /\ sent (after_options fo w) = sent w.
Proof.
  unfold after_options. destruct fo as [l|]; [|done].
  destruct (truthy_opt _); done.
Qed.

Lemma rewritten_alt (d : gmap string string) :
  rewritten d
  = if truthy_opt (d !! "cache-control")
    then <["cache-control" := "max-age=" +:+ default "" (d !! "cache-control")]> d
    else d.
Proof. unfold rewritten, truthy_opt. by destruct (d !! "cache-control"). Qed.

(** The options the header merge reads are the rewritten options. *)
Lemma options_after (fo : option nat) (w : world) :
  let l := match fo with Some l => l | None => length (dicts w) end in
  default ∅ (dicts (after_options fo w) !! l) = rewritten (options_of fo w).
Proof.
  intros l. subst l. rewrite rewritten_alt. unfold after_options.
  destruct fo as [l|]; simpl.
  - destruct (truthy_opt _) eqn:Ht; [|done]. simpl.
    rewrite list_lookup_alter_eq. destruct (dicts w !! l) as [d|] eqn:Hd; [done|].
    simpl in Ht. by rewrite lookup_empty in Ht.
  - rewrite lookup_app_r, Nat.sub_diag by lia. simpl. by rewrite lookup_empty.
Qed.

(** The dictionary steps at the head of both upload methods. *)
Lemma options_steps {A} (fo : option nat) (k : gmap string string -> M A) (w : world) :
  (let* file_options :=
     match fo with
     | None => dict_new ∅
     | Some l => ret l
     end in
   let* cache_control := dict_get file_options "cache-control" in
   let* _ :=
     if truthy_opt cache_control
     then dict_set file_options "cache-control" ("max-age=" +:+ default "" cache_control)
     else ret tt in
   let* opts := dict_read file_options in
   k opts) w
  = k (rewritten (options_of fo w)) (after_options fo w).
Proof.
  rewrite <- options_after.
  unfold bind, dict_get, bind, dict_read, dict_set, dict_new, ret, after_options, options_of.
  destruct fo as [l|]; simpl.
  - destruct (truthy_opt (default ∅ (dicts w !! l) !! "cache-control")); done.
  - rewrite lookup_app_r, Nat.sub_diag by lia. simpl. rewrite lookup_empty. simpl.
    by rewrite lookup_app_r, Nat.sub_diag by lia.
Qed.

Lemma read_opened (data : string) (w : world) :
  read_source (SrcFile (length (files w))) (opened data w) = (Ok data, consumed data w).
Proof.
  unfold read_source, opened, consumed. simpl.
  rewrite lookup_app_r, Nat.sub_diag by lia. simpl.
  by rewrite insert_app_r_alt, Nat.sub_diag by lia.
Qed.

(** Reading a file part changes nothing but the position of the file
    object read. *)
Lemma read_source_frame (src : body_source) (w : world) :
  fs (read_source src w).2 = fs w
  /\ dicts (read_source src w).2 = dicts w
  /\ sent (read_source src w).2 = sent w
  /\ length (files (read_source src w).2) = length (files w)
  /\ forall i f, files w !! i = Some f ->
       (files (read_source src w).2 !! i = Some f
        \/ (src = SrcFile i /\ fo_closed f = false
            /\ files (read_source src w).2 !! i = Some (drained f))).
Proof.
  unfold read_source. destruct src as [b|h]; [simpl; repeat split; auto|].
  destruct (files w !! h) as [fo|] eqn:Hh; [|simpl; repeat split; auto].
  destruct (fo_closed fo) eqn:Hc; [simpl; repeat split; auto|]. simpl.
  split; [done|]. split; [done|]. split; [done|].
  split; [by rewrite length_insert|].
  intros i f Hi. destruct (decide (i = h)) as [->|Hne].
  - right. rewrite Hh in Hi. injection Hi as <-.
    split; [done|]. split; [done|].
    apply list_lookup_insert_eq. by eapply lookup_lt_Some.
  - left. by rewrite list_lookup_insert_ne.
Qed.

(** The tail of both upload methods: file name, file tuple, request. *)
Lemma upload_tail (E : environment) (self : bucket) (method url path : string)
    (file : payload) (fo : option nat) (w : world) :
  (let hdrs := rewritten (options_of fo w)
               ∪ (DEFAULT_FILE_OPTIONS E ∪ headers (_client self)) in
   let* filename := lift (index_last (Py.rsplit1 "/" path)) in
   let* (files, hdrs) :=
     match file with
     | FBytes b =>
         let* (ctype, hdrs) := lift (dict_pop hdrs "content-type") in
         ret ((filename, SrcBytes b, ctype), hdrs)
     | FReader f =>
         let* (ctype, hdrs) := lift (dict_pop hdrs "content-type") in
         ret ((filename, SrcFile f, ctype), hdrs)
     | FPath p =>
         let* h := py_open p in
         let* (ctype, hdrs) := lift (dict_pop hdrs "content-type") in
         ret ((filename, SrcFile h, ctype), hdrs)
     end in
   _request self method url (Some hdrs) None (Some files)) (after_options fo w)
  = upload_outcome E self method url path file fo w.
Proof.
  unfold upload_outcome, merged.
  destruct (after_options_frame fo w) as (Hfs & Hfiles & Hsent).
  set (w1 := after_options fo w) in *.
  set (hdrs := rewritten (options_of fo w) ∪ _).
  cbv zeta. unfold bind at 1. unfold lift at 1.
  destruct (index_last (Py.rsplit1 "/" path)) as [name|e]; [|done].
  destruct file as [b|h|p].
  - unfold bind, lift, dict_pop, ret.
    destruct (hdrs !! "content-type") as [ct|]; [|done].
    by rewrite request_file.
  - unfold bind, lift, dict_pop, ret.
    destruct (hdrs !! "content-type") as [ct|]; [|done].
    rewrite request_file. by destruct (read_source (SrcFile h) w1) as [[data|e] w'].
  - unfold bind, py_open. rewrite <- Hfs.
    destruct (fs w1 !! p) as [data|]; [|done].
    unfold lift, dict_pop, ret. fold (opened data w1).
    destruct (hdrs !! "content-type") as [ct|]; [|done].
    by rewrite request_file.
Qed.

Lemma upload_run (E : environment) (self : bucket) (path : string)
    (file : payload) (fo : option nat) (w : world) :
  upload E self path file fo w
  = upload_outcome E self "POST" ("/object/" +:+ _get_final_path self path)
      path file fo w.
Proof.
  unfold upload. rewrite options_steps. apply upload_tail.
Qed.

(** ** URL parsing of a rooted path *)

Lemma split_scheme_not_alpha (c : ascii) (s : string) :
  Py.is_alpha c = false ->
  Urllib.split_scheme (String c s) = (EmptyString, String c s).
Proof.
  intros Hc. unfold Urllib.split_scheme. simpl.
  destruct (Ascii.eqb c ":"); [done|].
  destruct (Py.split_first ":" s) as [[h t]|]; [|done].
  by rewrite Hc.
Qed.

(** A target that starts with [/o] has no scheme and no network
    location, so parsing it cannot raise. *)
Lemma urlparse_rooted (c1 c2 : string -> bool) (s : string) :
  exists r, Urllib.urlparse c1 c2 (String "/" (String "o" s)) = Ok r.
Proof.
  unfold Urllib.urlparse, Urllib.urlsplit.
  change (Py.lstrip Urllib._WHATWG_C0_CONTROL_OR_SPACE (String "/" (String "o" s)))
    with (String "/" (String "o" s)).
  change (foldl (fun u b => Py.remove b u) (String "/" (String "o" s))
            Urllib._UNSAFE_URL_BYTES_TO_REMOVE)
    with (String "/" (String "o"
            (foldl (fun u b => Py.remove b u) s Urllib._UNSAFE_URL_BYTES_TO_REMOVE))).
  set (s' := foldl _ s _).
  rewrite split_scheme_not_alpha by done.
  change (Py.startswith "//" (String "/" (String "o" s'))) with false. cbv iota.
  destruct (Py.split_first "#" _) as [[u f]|];
    (destruct (Py.split_first "?" _) as [[u' q]|]);
    change (Urllib.check_nfkc c2 "") with (Ok tt); cbv iota beta;
    match goal with |- context [if ?b then _ else _] => destruct b end;
    try (destruct (Urllib._splitparams _)); eauto.
Qed.

Lemma upload_to_signed_url_run (E : environment) (self : bucket) (path token : string)
    (file : payload) (fo : option nat) (w : world) :
  upload_to_signed_url E self path token file fo w
  = upload_outcome E self "PUT" (signed_upload_target E self path token)
      path file fo w.
Proof.
  unfold upload_to_signed_url, signed_upload_target.
  change ("/object/upload/sign/" +:+ _get_final_path self path)
    with (String "/" (String "o" ("bject/upload/sign/" +:+ _get_final_path self path))).
  destruct (urlparse_rooted (check_bracketed_netloc E) (checknetloc E)
              ("bject/upload/sign/" +:+ _get_final_path self path)) as [r ->].
  unfold bind at 1. unfold lift at 1. cbv zeta.
  rewrite options_steps. apply upload_tail.
Qed.

Local Arguments read_source : simpl never.

(** If a request went out, it is the upload request built from the
    merged headers, the file name and the payload, and the outcome is the
    checked answer to it. *)
Lemma upload_outcome_sent (E : environment) (self : bucket) (method url path : string)
    (file : payload) (fo : option nat) (w : world) (wr : wire_request) :
  sent (upload_outcome E self method url path file fo w).2 = sent w ++ [wr] ->
  exists name data ctype,
    index_last (Py.rsplit1 "/" path) = Ok name
    /\ merged E self (rewritten (options_of fo w)) !! "content-type" = Some ctype
    /\ payload_bytes file fo w data
    /\ wr = upload_request method url (merged E self (rewritten (options_of fo w)))
              name data ctype
    /\ (upload_outcome E self method url path file fo w).1 = answer (_client self) wr.
Proof.
  unfold upload_outcome, payload_bytes.
  destruct (after_options_frame fo w) as (Hfs & Hfiles & Hsent).
  set (w1 := after_options fo w) in *.
  set (hdrs := merged E self _).
  destruct (index_last (Py.rsplit1 "/" path)) as [name|e]; simpl;
    [|rewrite Hsent; intros H; by apply sent_not_grown in H].
  destruct file as [b|h|p].
  - destruct (hdrs !! "content-type") as [ct|]; simpl;
      [|rewrite Hsent; intros H; by apply sent_not_grown in H].
    change (read_source (SrcBytes b) w1) with (Ok b, w1). simpl.
    rewrite Hsent. intros H%sent_snoc_inv. subst wr. by exists name, b, ct.
  - destruct (hdrs !! "content-type") as [ct|]; simpl;
      [|rewrite Hsent; intros H; by apply sent_not_grown in H].
    destruct (read_source_frame (SrcFile h) w1) as (_ & _ & Hs & _).
    destruct (read_source (SrcFile h) w1) as [[data|e] w3]; simpl in *; rewrite Hs, Hsent;
      [|intros H; by apply sent_not_grown in H].
    intros H%sent_snoc_inv. subst wr. by exists name, data, ct.
  - destruct (fs w !! p) as [data|]; simpl;
      [|rewrite Hsent; intros H; by apply sent_not_grown in H].
    destruct (hdrs !! "content-type") as [ct|]; simpl;
      [|rewrite Hsent; intros H; by apply sent_not_grown in H].
    rewrite read_opened. simpl.
    rewrite Hsent. intros H%sent_snoc_inv. subst wr. by exists name, data, ct.
Qed.

Lemma upload_outcome_dicts (E : environment) (self : bucket) (method url path : string)
    (file : payload) (fo : option nat) (w : world) :
  dicts (upload_outcome E self method url path file fo w).2 = dicts (after_options fo w).
Proof.
  unfold upload_outcome.
  destruct (index_last _); [|done].
  destruct file as [b|h|p]; simpl.
  - by destruct (_ !! "content-type").
  - destruct (_ !! "content-type"); [|done].
    destruct (read_source_frame (SrcFile h) (after_options fo w)) as (_ & Hd & _).
    by destruct (read_source _ _) as [[data|e] w3].
  - destruct (fs w !! p); [|done]. destruct (_ !! "content-type"); [|done].
    by rewrite read_opened.
Qed.

Lemma upload_outcome_files (E : environment) (self : bucket) (method url path : string)
    (fo : option nat) (w : world) (p data : string) :
  fs w !! p = Some data ->
  files (upload_outcome E self method url path (FPath p) fo w).2
  = files w ++ [{| fo_data := data;
                   fo_pos := match merged E self (rewritten (options_of fo w))
                                     !! "content-type" with
                             | Some _ => String.length data
                             | None => 0
                             end;
                   fo_closed := false |}].
Proof.
  intros Hp. unfold upload_outcome.
  destruct (after_options_frame fo w) as (_ & Hfiles & _).
  destruct (index_last_rsplit1 path) as (name & -> & _).
  rewrite Hp. simpl. destruct (_ !! "content-type"); simpl; [rewrite read_opened|];
    simpl; by rewrite Hfiles.
Qed.

(** When the content type resolves and the payload can be read, the
    request goes out: the upload request built from the merged headers,
    the final segment of the path and the bytes of the payload. *)
Lemma upload_outcome_goes_out (E : environment) (self : bucket)
    (method url path : string) (file : payload) (fo : option nat) (w : world)
    (ctype data : string) :
  merged E self (rewritten (options_of fo w)) !! "content-type" = Some ctype ->
  payload_bytes file fo w data ->
  exists name,
    index_last (Py.rsplit1 "/" path) = Ok name
    /\ final_segment path name
    /\ sent (upload_outcome E self method url path file fo w).2
       = sent w ++ [upload_request method url
                      (merged E self (rewritten (options_of fo w))) name data ctype]
    /\ (upload_outcome E self method url path file fo w).1
       = answer (_client self)
           (upload_request method url
              (merged E self (rewritten (options_of fo w))) name data ctype).
Proof.
  intros Hct Hdata. unfold upload_outcome, payload_bytes in *.
  destruct (after_options_frame fo w) as (Hfs & Hfiles & Hsent).
  set (w1 := after_options fo w) in *.
  destruct (index_last_rsplit1 path) as (name & Hname & Hseg).
  exists name. rewrite Hname, Hct. split; [done|]. split; [done|].
  destruct file as [b|h|p].
  - subst b. change (read_source (SrcBytes data) w1) with (Ok data, w1).
    simpl. by rewrite Hsent.
  - destruct (read_source_frame (SrcFile h) w1) as (_ & _ & Hs & _).
    destruct (read_source (SrcFile h) w1) as [[data'|e] w3]; simpl in *; [|done].
    injection Hdata as ->. by rewrite Hs, Hsent.
  - rewrite Hdata, read_opened. simpl. by rewrite Hsent.
Qed.

Lemma after_options_caller (l : nat) (d : gmap string string) (w : world) :
  dicts w !! l = Some d ->
  dicts (after_options (Some l) w) !! l = Some (rewritten d).
Proof.
  intros Hd. rewrite rewritten_alt. unfold after_options, options_of.
  rewrite Hd. simpl. destruct (truthy_opt (d !! "cache-control")); [|done].
  simpl. by rewrite list_lookup_alter_eq, Hd.
Qed.

(** C10: a caller's options dictionary with a non-empty [cache-control]
    entry is changed in place by both upload methods: after the call,
    however it ends, the entry reads [max-age=] followed by the old
    value. *)
Theorem uploads_rewrite_the_callers_options (E : environment) (self : bucket)
    (path token : string) (file : payload) (l : nat) (d : gmap string string)
    (v : string) (w : world) :
  dicts w !! l = Some d ->
  d !! "cache-control" = Some v ->
  v <> "" ->
  dicts (upload E self path file (Some l) w).2 !! l
    = Some (<["cache-control" := "max-age=" +:+ v]> d)
  /\ dicts (upload_to_signed_url E self path token file (Some l) w).2 !! l
    = Some (<["cache-control" := "max-age=" +:+ v]> d).
Proof.
  intros Hd Hv Hne.
  assert (Hr : rewritten d = <["cache-control" := "max-age=" +:+ v]> d).
  { unfold rewritten. rewrite Hv. by destruct v. }
  rewrite upload_run, upload_to_signed_url_run, !upload_outcome_dicts.
  rewrite (after_options_caller l d w Hd), Hr. done.
Qed.

(** Dictionary 0 of the sample world after an upload of bytes and after an
    upload from a path. *)
Lemma uploads_rewrite_the_callers_options_sample :
  dicts (upload sample_env (sample_bucket (ok_response JNull)) "folder/a.txt"
           (FBytes "hello") (Some 0%nat) sample_world).2 !! 0%nat
    = Some {["cache-control" := "max-age=3600"; "x-upsert" := "true"]}
  /\ dicts (upload_to_signed_url sample_env (sample_bucket (ok_response JNull))
              "folder/a.txt" "tok" (FPath "/tmp/a.txt") (Some 0%nat) sample_world).2 !! 0%nat
    = Some {["cache-control" := "max-age=3600"; "x-upsert" := "true"]}.
Proof.
  destruct (uploads_rewrite_the_callers_options sample_env
              (sample_bucket (ok_response JNull)) "folder/a.txt" "tok" (FBytes "hello")
              0%nat {["cache-control" := "3600"; "x-upsert" := "true"]} "3600" sample_world)
    as [H1 _]; [reflexivity | reflexivity | discriminate |].
  destruct (uploads_rewrite_the_callers_options sample_env
              (sample_bucket (ok_response JNull)) "folder/a.txt" "tok" (FPath "/tmp/a.txt")
              0%nat {["cache-control" := "3600"; "x-upsert" := "true"]} "3600" sample_world)
    as [_ H2]; [reflexivity | reflexivity | discriminate |].
  split; [exact H1 | exact H2].
Defined.

(** C9, as the code has it: when the payload is a path to an existing
    file, both upload methods open one file object and leave it open.
    Whatever the outcome of the call (a response, a storage error, an
    error of the transport, a missing content type), the file objects
    after the call are those before it followed by the new one, not
    closed. The new one has been read to its end when the content type
    resolved, so that the file part was built, and is at its start
    otherwise. *)
Theorem uploads_leave_the_file_open (E : environment) (self : bucket)
    (path token : string) (fo : option nat) (w : world) (p data : string) :
  fs w !! p = Some data ->
  let left_open :=
    {| fo_data := data;
       fo_pos := match merged E self (rewritten (options_of fo w)) !! "content-type" with
                 | Some _ => String.length data
                 | None => 0
                 end;
       fo_closed := false |} in
  files (upload E self path (FPath p) fo w).2 = files w ++ [left_open]
  /\ files (upload_to_signed_url E self path token (FPath p) fo w).2
    = files w ++ [left_open].
Proof.
  intros Hp. rewrite upload_run, upload_to_signed_url_run.
  split; by apply upload_outcome_files.
Qed.

(** The request is answered with status 500 and a body that is not JSON:
    the call raises, and the file object is open all the same. *)
Lemma uploads_leave_the_file_open_sample :
  files (upload sample_env (sample_bucket (failing_response 500 None)) "folder/a.txt"
           (FPath "/tmp/a.txt") None sample_world).2
    = [{| fo_data := "hello"; fo_pos := 5; fo_closed := false |}]
  /\ files (upload_to_signed_url sample_env (sample_bucket (failing_response 500 None))
              "folder/a.txt" "tok" (FPath "/tmp/a.txt") None sample_world).2
    = [{| fo_data := "hello"; fo_pos := 5; fo_closed := false |}].
Proof.
  apply (uploads_leave_the_file_open sample_env
           (sample_bucket (failing_response 500 None)) "folder/a.txt" "tok" None
           sample_world "/tmp/a.txt" "hello").
  reflexivity.
Defined.

(** C9, as stated, fails: after an upload from a path the file object
    that was opened is not closed. *)
Lemma upload_does_not_close_the_file :
  ~ (forall (E : environment) (self : bucket) (path : string) (fo : option nat)
            (w : world) (p data : string),
       fs w !! p = Some data ->
       exists f, files (upload E self path (FPath p) fo w).2 !! length (files w) = Some f
                 /\ fo_closed f = true).
Proof.
  intros H.
  destruct (H sample_env (sample_bucket (ok_response JNull)) "folder/a.txt" None
              sample_world "/tmp/a.txt" "hello" eq_refl) as (f & Hf & Hclosed).
  vm_compute in Hf. injection Hf as <-. discriminate Hclosed.
Qed.

(** C8: an upload of the bytes [data] and an upload from a path whose
    file holds [data] have the same outcome and send the same request,
    for [upload] and for [upload_to_signed_url]. Whenever the header merge
    resolves a content type, each of the four calls does send its
    request ([upload] a POST, [upload_to_signed_url] a PUT), and the file
    part of it has the final segment of the relative path as file name,
    the content [data] and the resolved content type. *)
Theorem upload_bytes_and_path_agree (E : environment) (self : bucket)
    (path token : string) (fo : option nat) (w : world) (p data : string) :
  fs w !! p = Some data ->
  let by_bytes := upload E self path (FBytes data) fo w in
  let by_path := upload E self path (FPath p) fo w in
  let signed_bytes := upload_to_signed_url E self path token (FBytes data) fo w in
  let signed_path := upload_to_signed_url E self path token (FPath p) fo w in
  by_bytes.1 = by_path.1
  /\ sent by_bytes.2 = sent by_path.2
  /\ signed_bytes.1 = signed_path.1
  /\ sent signed_bytes.2 = sent signed_path.2
  /\ (forall wr,
        sent by_path.2 = sent w ++ [wr] \/ sent signed_path.2 = sent w ++ [wr] ->
        exists name ctype,
          wr_files wr = Some {| mp_filename := name; mp_content := data;
                                mp_content_type := ctype |}
          /\ final_segment path name
          /\ merged E self (rewritten (options_of fo w)) !! "content-type" = Some ctype)
  /\ (forall ctype,
        merged E self (rewritten (options_of fo w)) !! "content-type" = Some ctype ->
        exists name posted put,
          final_segment path name
          /\ sent by_bytes.2 = sent w ++ [posted]
          /\ sent by_path.2 = sent w ++ [posted]
          /\ sent signed_bytes.2 = sent w ++ [put]
          /\ sent signed_path.2 = sent w ++ [put]
          /\ wr_method posted = "POST"
          /\ wr_method put = "PUT"
          /\ wr_files posted = Some {| mp_filename := name; mp_content := data;
                                       mp_content_type := ctype |}
          /\ wr_files put = Some {| mp_filename := name; mp_content := data;
                                    mp_content_type := ctype |}).
Proof.
  intros Hp. cbv zeta. rewrite !upload_run, !upload_to_signed_url_run.
  assert (Hsame : forall method url,
    (upload_outcome E self method url path (FBytes data) fo w).1
    = (upload_outcome E self method url path (FPath p) fo w).1
    /\ sent (upload_outcome E self method url path (FBytes data) fo w).2
       = sent (upload_outcome E self method url path (FPath p) fo w).2).
  { intros method url. unfold upload_outcome. rewrite Hp.
    destruct (index_last _); [|done].
    simpl. destruct (_ !! "content-type"); [|done].
    rewrite read_opened.
    by change (read_source (SrcBytes data) (after_options fo w))
         with (Ok data, after_options fo w). }
  destruct (Hsame "POST" ("/object/" +:+ _get_final_path self path)) as [-> ->].
  destruct (Hsame "PUT" (signed_upload_target E self path token)) as [-> ->].
  repeat (split; [done|]). split.
  - intros wr [Hs|Hs];
      apply upload_outcome_sent in Hs as (name & data' & ct & Hn & Hct & Hd & -> & _);
      simpl in Hd; rewrite Hp in Hd; injection Hd as <-;
      destruct (index_last_rsplit1 path) as (name' & Hn' & Hseg);
      rewrite Hn in Hn'; injection Hn' as <-;
      by exists name, ct.
  - intros ctype Hct.
    destruct (upload_outcome_goes_out E self "POST"
                ("/object/" +:+ _get_final_path self path) path (FPath p) fo w
                ctype data Hct Hp) as (name & Hn & Hseg & Hposted & _).
    destruct (upload_outcome_goes_out E self "PUT"
                (signed_upload_target E self path token) path (FPath p) fo w
                ctype data Hct Hp) as (name' & Hn' & _ & Hput & _).
    rewrite Hn in Hn'. injection Hn' as <-.
    eexists name, _, _. split; [exact Hseg|].
    split; [exact Hposted|]. split; [exact Hposted|].
    split; [exact Hput|]. split; [exact Hput|]. done.
Qed.

(** The same five bytes, as a buffer and as the file [/tmp/a.txt], through
    [upload] and through [upload_to_signed_url]. *)
Lemma upload_bytes_and_path_agree_sample :
  let by_bytes := upload sample_env (sample_bucket (ok_response JNull)) "folder/a.txt"
                    (FBytes "hello") (Some 0%nat) sample_world in
  let by_path := upload sample_env (sample_bucket (ok_response JNull)) "folder/a.txt"
                   (FPath "/tmp/a.txt") (Some 0%nat) sample_world in
  let signed_bytes := upload_to_signed_url sample_env (sample_bucket (ok_response JNull))
                        "folder/a.txt" "tok" (FBytes "hello") (Some 0%nat) sample_world in
  let signed_path := upload_to_signed_url sample_env (sample_bucket (ok_response JNull))
                       "folder/a.txt" "tok" (FPath "/tmp/a.txt") (Some 0%nat)
                       sample_world in
  by_bytes.1 = by_path.1
  /\ sent by_bytes.2 = sent by_path.2
  /\ signed_bytes.1 = signed_path.1
  /\ sent signed_bytes.2 = sent signed_path.2
  /\ wr_files <$> sent by_path.2
     = [Some {| mp_filename := "a.txt"; mp_content := "hello";
                mp_content_type := "text/plain;charset=UTF-8" |}]
  /\ wr_files <$> sent signed_path.2
     = [Some {| mp_filename := "a.txt"; mp_content := "hello";
                mp_content_type := "text/plain;charset=UTF-8" |}]
  /\ wr_method <$> sent signed_bytes.2 = ["PUT"].
Proof.
  destruct (upload_bytes_and_path_agree sample_env (sample_bucket (ok_response JNull))
              "folder/a.txt" "tok" (Some 0%nat) sample_world "/tmp/a.txt" "hello" eq_refl)
    as (H1 & H2 & H3 & H4 & _ & H6).
  destruct (H6 "text/plain;charset=UTF-8" eq_refl)
    as (name & posted & put & _ & _ & Hposted & Hsb & Hput & _ & Hm & Hfp & Hfu).
  split; [exact H1|]. split; [exact H2|]. split; [exact H3|]. split; [exact H4|].
  split; [|split].
  - reflexivity.
  - reflexivity.
  - reflexivity.
Defined.

(** ** Header merging *)

Lemma merged_lookup (E : environment) (self : bucket) (opts : gmap string string)
    (k : string) :
  merged E self opts !! k
  = match opts !! k with
    | Some x => Some x
    | None => match DEFAULT_FILE_OPTIONS E !! k with
              | Some x => Some x
              | None => headers (_client self) !! k
              end
    end.
Proof.
  unfold merged. rewrite !lookup_union.
  destruct (opts !! k), (DEFAULT_FILE_OPTIONS E !! k), (headers (_client self) !! k); done.
Qed.

(** C5, as the code has it: the headers of the request an upload method
    sends are the merge of the client's headers, the default file options
    and the caller's options (each layer over the one before) without the
    [content-type] entry, which goes to the file part instead. A
    [cache-control] option that is not empty arrives as [max-age=]
    followed by its value; an empty one is not rewritten and arrives
    empty. Every other option of the caller arrives unchanged. Whenever
    the merge resolves a content type and the payload can be read, both
    methods do send their request, with these headers. *)
Theorem upload_headers_are_the_merge (E : environment) (self : bucket)
    (path token : string) (file : payload) (fo : option nat) (w : world) :
  let d := options_of fo w in
  let all := merged E self (rewritten d) in
  (forall wr,
     sent (upload E self path file fo w).2 = sent w ++ [wr]
     \/ sent (upload_to_signed_url E self path token file fo w).2 = sent w ++ [wr] ->
     wr_headers wr = delete "content-type" all
     /\ (forall k, all !! k
           = match rewritten d !! k with
             | Some x => Some x
             | None => match DEFAULT_FILE_OPTIONS E !! k with
                       | Some x => Some x
                       | None => headers (_client self) !! k
                       end
             end)
     /\ (exists part, wr_files wr = Some part
                      /\ all !! "content-type" = Some (mp_content_type part))
     /\ wr_headers wr !! "content-type" = None
     /\ (forall v, d !! "cache-control" = Some v -> v <> "" ->
           wr_headers wr !! "cache-control" = Some ("max-age=" +:+ v))
     /\ (d !! "cache-control" = Some "" -> wr_headers wr !! "cache-control" = Some "")
     /\ (forall k x, d !! k = Some x -> k <> "cache-control" -> k <> "content-type" ->
           wr_headers wr !! k = Some x))
  /\ (forall ctype data,
        all !! "content-type" = Some ctype ->
        payload_bytes file fo w data ->
        exists posted put,
          sent (upload E self path file fo w).2 = sent w ++ [posted]
          /\ sent (upload_to_signed_url E self path token file fo w).2 = sent w ++ [put]
          /\ wr_method posted = "POST"
          /\ wr_method put = "PUT"
          /\ wr_headers posted = delete "content-type" all
          /\ wr_headers put = delete "content-type" all
          /\ (exists name, wr_files posted
                            = Some {| mp_filename := name; mp_content := data;
                                      mp_content_type := ctype |}
                          /\ wr_files put = wr_files posted)).
Proof.
  intros d all. split.
  - intros wr Hs.
    assert (Hwr : exists name data ctype,
               all !! "content-type" = Some ctype
               /\ (wr = upload_request "POST" ("/object/" +:+ _get_final_path self path)
                         all name data ctype
                   \/ wr = upload_request "PUT" (signed_upload_target E self path token)
                            all name data ctype)).
    { destruct Hs as [Hs|Hs];
        [rewrite upload_run in Hs|rewrite upload_to_signed_url_run in Hs];
        apply upload_outcome_sent in Hs as (name & data & ct & _ & Hct & _ & -> & _);
        exists name, data, ct; auto. }
    destruct Hwr as (name & data & ct & Hct & Hwr).
    assert (Hh : wr_headers wr = delete "content-type" all)
      by (by destruct Hwr as [->| ->]).
    assert (Hf : wr_files wr = Some {| mp_filename := name; mp_content := data;
                                       mp_content_type := ct |})
      by (by destruct Hwr as [->| ->]).
    rewrite Hh. split; [done|]. split; [intros k; apply merged_lookup|].
    split; [eexists; split; [exact Hf|exact Hct]|].
    split; [apply lookup_delete_eq|].
    split; [|split].
    + intros v Hv Hne. rewrite lookup_delete_ne by done.
      subst all. rewrite merged_lookup. unfold rewritten. rewrite Hv.
      destruct v; [done|]. simpl. by rewrite lookup_insert_eq.
    + intros Hv. rewrite lookup_delete_ne by done.
      subst all. rewrite merged_lookup. unfold rewritten. rewrite Hv. simpl.
      by rewrite Hv.
    + intros k x Hk Hcc Hct'. rewrite lookup_delete_ne by done.
      subst all. rewrite merged_lookup.
      assert (rewritten d !! k = Some x) as ->; [|done].
      unfold rewritten. destruct (d !! "cache-control") as [v|]; [|done].
      destruct (Py.truthy_str v); [|done]. by rewrite lookup_insert_ne.
  - intros ctype data Hct Hdata. rewrite upload_run, upload_to_signed_url_run.
    destruct (upload_outcome_goes_out E self "POST"
                ("/object/" +:+ _get_final_path self path) path file fo w
                ctype data Hct Hdata) as (name & Hn & _ & Hposted & _).
    destruct (upload_outcome_goes_out E self "PUT"
                (signed_upload_target E self path token) path file fo w
                ctype data Hct Hdata) as (name' & Hn' & _ & Hput & _).
    rewrite Hn in Hn'. injection Hn' as <-.
    eexists _, _. split; [exact Hposted|]. split; [exact Hput|].
    repeat (split; [done|]). by exists name.
Qed.

(** The headers of a sample upload, through both methods: the caller's
    options over the defaults over the client's headers, without the
    content type. *)
Lemma upload_headers_are_the_merge_sample :
  exists posted put,
    sent (upload sample_env (sample_bucket (ok_response JNull)) "folder/a.txt"
            (FBytes "hello") (Some 0%nat) sample_world).2 = [posted]
    /\ sent (upload_to_signed_url sample_env (sample_bucket (ok_response JNull))
               "folder/a.txt" "tok" (FBytes "hello") (Some 0%nat) sample_world).2 = [put]
    /\ wr_headers posted
       = {["authorization" := "Bearer k"; "cache-control" := "max-age=3600";
           "x-upsert" := "true"]}
    /\ wr_headers put = wr_headers posted
    /\ wr_headers posted !! "cache-control" = Some "max-age=3600".
Proof.
  destruct (upload_headers_are_the_merge sample_env (sample_bucket (ok_response JNull))
              "folder/a.txt" "tok" (FBytes "hello") (Some 0%nat) sample_world)
    as [Hsent Hout].
  destruct (Hout "text/plain;charset=UTF-8" "hello" eq_refl eq_refl)
    as (posted & put & Hposted & Hput & _ & _ & Hhp & Hhu & _).
  exists posted, put. split; [exact Hposted|]. split; [exact Hput|].
  destruct (Hsent posted (or_introl Hposted)) as (_ & _ & _ & _ & Hcc & _).
  split; [rewrite Hhp; reflexivity|]. split; [by rewrite Hhp, Hhu|].
  apply (Hcc "3600"); [reflexivity|discriminate].
Defined.

(** C5, as stated, fails: a supplied [cache-control] option that is empty
    is not turned into [max-age=]. *)
Lemma empty_cache_control_is_not_rewritten :
  ~ (forall (E : environment) (self : bucket) (path : string) (file : payload)
            (l : nat) (d : gmap string string) (v : string) (w : world)
            (wr : wire_request),
       dicts w !! l = Some d ->
       d !! "cache-control" = Some v ->
       sent (upload E self path file (Some l) w).2 = sent w ++ [wr] ->
       wr_headers wr !! "cache-control" = Some ("max-age=" +:+ v)).
Proof.
  intros H.
  specialize (H sample_env (sample_bucket (ok_response JNull)) "folder/a.txt"
                (FBytes "hello") 1%nat {["cache-control" := ""]} "" sample_world
                _ eq_refl eq_refl eq_refl).
  vm_compute in H. discriminate H.
Qed.

(** ** Error normalisation *)

Lemma check_status_failed (r : Response) :
  is_success r = false -> exists e, check_status r = Raise e.
Proof.
  intros Hr. rewrite check_status_cases, Hr.
  destruct (json_body r) as [[]|]; eauto.
Qed.

(** A call that is one request followed by steps that leave the world
    alone fails with the error of the request when the status is a
    failure. *)
Lemma request_then_pure {B} (self : bucket) (method url : string)
    (hdrs : option (gmap string string)) (js : option json)
    (k : Response -> M B) (w : world) (wr : wire_request) (r : Response) :
  (forall a w0, (k a w0).2 = w0) ->
  sent (bind (_request self method url hdrs js None) k w).2 = sent w ++ [wr] ->
  transport (_client self) wr = Ok r ->
  is_success r = false ->
  forall e, check_status r = Raise e ->
  (bind (_request self method url hdrs js None) k w).1 = Raise e.
Proof.
  intros Hk Hs Hwr Hr e He. unfold bind in *. rewrite request_plain in *.
  match type of Hs with context [answer _ ?x] => set (wr0 := x) in * end.
  assert (wr0 = wr) as Heq.
  { destruct (answer (_client self) wr0) as [a|e0]; simpl in Hs.
    - rewrite Hk in Hs. by apply sent_snoc_inv in Hs.
    - by apply sent_snoc_inv in Hs. }
  rewrite Heq. unfold answer. rewrite Hwr, He. done.
Qed.

Ltac pure_steps :=
  intros; unfold bind, lift, ret, raise; simpl;
  repeat (match goal with
          | |- context [match ?x with _ => _ end] => destruct x; simpl
          end);
  reflexivity.

Lemma fmapM_fst_raise {A B} (f : A -> B) (m : M A) (w : world) (e : exn) :
  (m w).1 = Raise e -> (fmapM f m w).1 = Raise e.
Proof.
  unfold fmapM, bind, ret. destruct (m w) as [[a|e'] w']; simpl; congruence.
Qed.

Lemma fmapM_snd {A B} (f : A -> B) (m : M A) (w : world) :
  (fmapM f m w).2 = (m w).2.
Proof. unfold fmapM, bind, ret. by destruct (m w) as [[a|e'] w']. Qed.

(** Every operation: if its request went out and was answered with a
    failure status, the operation's outcome is what [_request] makes of
    that answer. *)
Lemma run_failed_status (E : environment) (self : bucket) (op : operation)
    (w : world) (wr : wire_request) (r : Response) :
  sent (run E self op w).2 = sent w ++ [wr] ->
  transport (_client self) wr = Ok r ->
  is_success r = false ->
  exists e, check_status r = Raise e /\ (run E self op w).1 = Raise e.
Proof.
  intros Hs Hwr Hr. destruct (check_status_failed r Hr) as [e He].
  exists e. split; [done|].
  destruct op; simpl in *; rewrite fmapM_snd in Hs; apply fmapM_fst_raise.
  - eapply request_then_pure; try done; pure_steps.
  - rewrite upload_to_signed_url_run in *.
    apply upload_outcome_sent in Hs as (? & ? & ? & _ & _ & _ & -> & ->).
    unfold answer. by rewrite Hwr, He.
  - eapply request_then_pure; try done; pure_steps.
  - eapply request_then_pure; try done; pure_steps.
  - eapply request_then_pure; try done; pure_steps.
  - eapply request_then_pure; try done; pure_steps.
  - eapply request_then_pure; try done; pure_steps.
  - eapply request_then_pure; try done; pure_steps.
  - eapply request_then_pure; try done; pure_steps.
  - rewrite upload_run in *.
    apply upload_outcome_sent in Hs as (? & ? & ? & _ & _ & _ & -> & ->).
    unfold answer. by rewrite Hwr, He.
Qed.

(** C2, as the code has it: for every operation, when the request it
    sent is answered with a failure status and a body that decodes to a
    JSON object, the operation raises the storage exception whose data is
    that object with [statusCode] set to the status; when the body does
    not decode, the decoding error is what the caller gets. A body that
    decodes to something other than an object cannot be merged: the
    caller gets a [TypeError]. *)
Theorem failed_status_is_normalised (E : environment) (self : bucket)
    (op : operation) (w : world) (wr : wire_request) (r : Response) :
  sent (run E self op w).2 = sent w ++ [wr] ->
  transport (_client self) wr = Ok r ->
  is_success r = false ->
  (forall o, json_body r = Some (JObj o) ->
     (run E self op w).1
     = Raise (StorageException (JObj (<["statusCode" := JNum (status_code r)]> o))))
  /\ (json_body r = None -> (run E self op w).1 = Raise JSONDecodeError)
  /\ (forall v, json_body r = Some v -> (forall o, v <> JObj o) ->
        (run E self op w).1 = Raise (TypeError "object is not a mapping")).
Proof.
  intros Hs Hwr Hr.
  destruct (run_failed_status E self op w wr r Hs Hwr Hr) as (e & He & ->).
  rewrite check_status_cases, Hr in He.
  split; [|split].
  - intros o Ho. rewrite Ho in He. congruence.
  - intros Hn. rewrite Hn in He. congruence.
  - intros v Hv Hno. rewrite Hv in He.
    destruct v as [| | | | |o]; try congruence; by destruct (Hno o).
Qed.

(** Status 404 with the body [{"error": "not found"}]. *)
Lemma failed_status_is_normalised_sample :
  (run sample_env
     (sample_bucket (failing_response 404 (Some (JObj {["error" := JStr "not found"]}))))
     (Remove ["a.png"]) empty_world).1
  = Raise (StorageException
             (JObj {["error" := JStr "not found"; "statusCode" := JNum 404]})).
Proof.
  set (body := {["error" := JStr "not found"]} : gmap string json).
  edestruct (failed_status_is_normalised sample_env
               (sample_bucket (failing_response 404 (Some (JObj body))))
               (Remove ["a.png"]) empty_world) as (Hobj & _ & _).
  - reflexivity.
  - reflexivity.
  - reflexivity.
  - etrans; [apply (Hobj body); reflexivity|]. reflexivity.
Defined.

(** C2, as stated, fails: a failure status with a body that is JSON but
    not an object does not produce a storage exception. *)
Lemma failed_status_with_array_body_is_no_storage_error :
  ~ (forall (E : environment) (self : bucket) (op : operation) (w : world)
            (wr : wire_request) (r : Response) (body : json),
       sent (run E self op w).2 = sent w ++ [wr] ->
       transport (_client self) wr = Ok r ->
       is_success r = false ->
       json_body r = Some body ->
       exists data, (run E self op w).1 = Raise (StorageException data)).
Proof.
  intros H.
  destruct (H sample_env (sample_bucket (failing_response 500 (Some (JArr []))))
              (Move "a.png" "b.png") empty_world _ _ (JArr [])
              eq_refl eq_refl eq_refl eq_refl) as [data Hdata].
  vm_compute in Hdata. discriminate Hdata.
Qed.

(** ** Signed upload URLs *)

Lemma create_signed_upload_url_run (E : environment) (self : bucket) (p : string)
    (w : world) :
  create_signed_upload_url E self p w
  = (match answer (_client self) (signed_upload_request self p) with
     | Ok response => signed_upload_result E self p response
     | Raise e => Raise e
     end, logged (signed_upload_request self p) w).
Proof.
  unfold create_signed_upload_url, signed_upload_result, bind.
  rewrite request_plain. cbn [from_option]. fold (signed_upload_request self p).
  destruct (answer _ _) as [response|e]; [|done].
  unfold lift, ret, raise.
  destruct (response_json response) as [data|e]; [|done].
  destruct (subscript data "url") as [url|e]; [|done].
  destruct (concat_str _ url) as [joined|e]; [|done].
  destruct (Urllib.urlparse _ _ joined) as [full_url|e]; [|done].
  destruct (Urllib.parse_qs _ !! "token") as [[|tok rest]|]; done.
Qed.

(** C1 on the code: with the base URL [https://x/] and a successful
    response whose body is
    [{"url": "/object/upload/sign/b/p?token=abc"}], the call returns the
    token [abc] and the path, but the signed URL is the plain
    concatenation [https://x//object/upload/sign/b/p?token=abc]: the
    leading slash of the relative URL is kept, so the result is not the
    URL with a single slash. *)
Theorem signed_upload_url_keeps_the_leading_slash (E : environment) (self : bucket)
    (p : string) (w : world) (r : Response) :
  base_url (_client self) = "https://x/" ->
  transport (_client self) (signed_upload_request self p) = Ok r ->
  is_success r = true ->
  json_body r = Some (JObj {["url" := JStr "/object/upload/sign/b/p?token=abc"]}) ->
  (create_signed_upload_url E self p w).1
    = Ok {| signed_url := "https://x//object/upload/sign/b/p?token=abc";
            token := "abc"; path := p |}
  /\ (create_signed_upload_url E self p w).1
    <> Ok {| signed_url := "https://x/object/upload/sign/b/p?token=abc";
             token := "abc"; path := p |}.
Proof.
  intros Hbase Hwr Hok Hbody.
  assert (Hrun : (create_signed_upload_url E self p w).1
            = Ok {| signed_url := "https://x//object/upload/sign/b/p?token=abc";
                    token := "abc"; path := p |}).
  { rewrite create_signed_upload_url_run. simpl. unfold answer.
    rewrite Hwr, check_status_cases, Hok.
    unfold signed_upload_result, response_json. rewrite Hbody, Hbase.
    reflexivity. }
  split; [exact Hrun|]. rewrite Hrun. intros [=].
Qed.

(** The same on the sample client, whose base URL is [https://x/]. *)
Lemma signed_upload_url_keeps_the_leading_slash_sample :
  (create_signed_upload_url sample_env
     (sample_bucket (ok_response (JObj {["url" := JStr "/object/upload/sign/b/p?token=abc"]})))
     "p" empty_world).1
  = Ok {| signed_url := "https://x//object/upload/sign/b/p?token=abc";
          token := "abc"; path := "p" |}.
Proof.
  apply (signed_upload_url_keeps_the_leading_slash sample_env
           (sample_bucket (ok_response
              (JObj {["url" := JStr "/object/upload/sign/b/p?token=abc"]})))
           "p" empty_world
           (ok_response (JObj {["url" := JStr "/object/upload/sign/b/p?token=abc"]})));
    reflexivity.
Defined.

Example create_signed_url_strips_the_slash :
  (create_signed_url
     (sample_bucket (ok_response (JObj {["signedURL" := JStr "/object/sign/b/p?token=abc"]})))
     "p" 60 ∅ empty_world).1
  = Ok (JObj {["signedURL" := JStr "https://x/object/sign/b/p?token=abc"]}).
Proof. reflexivity. Qed.

(** *** Query parameters *)

Lemma unquote_truthy (s : string) :
  Py.truthy_str s = true -> Py.truthy_str (Urllib.unquote s) = true.
Proof.
  destruct s as [|c rest]; [done|]. intros _. simpl.
  destruct (Ascii.eqb c "%"); [|done].
  destruct rest as [|a [|b rest']]; try done.
  by destruct (Urllib.hex_val a), (Urllib.hex_val b).
Qed.

Lemma replace_truthy (a b : ascii) (s : string) :
  Py.truthy_str (Py.replace a b s) = Py.truthy_str s.
Proof. by destruct s. Qed.

Lemma parse_qsl_values_truthy (qs : string) :
  Forall (fun nv => Py.truthy_str (snd nv) = true) (Urllib.parse_qsl qs).
Proof.
  unfold Urllib.parse_qsl. generalize (if Py.truthy_str qs then Py.split "&" qs else []).
  intros l. induction l as [|f l IH]; simpl; [constructor|].
  apply Forall_app. split; [|done].
  unfold Urllib.parse_field. destruct (negb _); [constructor|].
  destruct (Py.split1 "=" f) as [|n [|v [|]]]; try constructor.
  destruct (Py.truthy_str v) eqn:Hv; constructor; [|constructor].
  simpl. apply unquote_truthy. by rewrite replace_truthy.
Qed.

Lemma grouping_lookup (k : string) (pairs : list (string * string))
    (acc : gmap string (list string)) :
  foldl (fun (parsed_result : gmap string (list string)) '(name, value) =>
           match parsed_result !! name with
           | Some vs => <[name := vs ++ [value]]> parsed_result
           | None => <[name := [value]]> parsed_result
           end) acc pairs !! k
  = match acc !! k, values_of k pairs with
    | None, [] => None
    | None, vs => Some vs
    | Some l, vs => Some (l ++ vs)
    end.
Proof.
  revert acc. induction pairs as [|[n v] pairs IH]; intros acc; simpl.
  - destruct (acc !! k); [by rewrite app_nil_r|done].
  - rewrite IH. unfold values_of. simpl. fold (values_of k pairs).
    destruct (String.eqb_spec n k) as [->|Hne].
    + destruct (acc !! k) as [l|]; rewrite lookup_insert_eq; simpl.
      * by rewrite <- app_assoc.
      * done.
    + destruct (acc !! n) as [l|]; by rewrite lookup_insert_ne.
Qed.

Lemma parse_qs_lookup (k q : string) :
  Urllib.parse_qs q !! k
  = match query_values k q with
    | [] => None
    | vs => Some vs
    end.
Proof.
  unfold Urllib.parse_qs, query_values. rewrite grouping_lookup, lookup_empty. done.
Qed.

Lemma query_values_truthy (k q : string) :
  Forall (fun v => Py.truthy_str v = true) (query_values k q).
Proof.
  unfold query_values, values_of.
  induction (parse_qsl_values_truthy q) as [|[n v] l Hv _ IH]; simpl; [constructor|].
  destruct (String.eqb n k); simpl; [constructor|]; done.
Qed.

(** *** The query component does not depend on the base URL *)

Lemma remove_app (a : ascii) (s t : string) :
  Py.remove a (s +:+ t) = Py.remove a s +:+ Py.remove a t.
Proof.
  induction s as [|c s IH]; [done|]. rewrite app_cons. simpl.
  destruct (Ascii.eqb c a); [done|]. by rewrite app_cons, IH.
Qed.

Lemma mem_remove (c a : ascii) (s : string) :
  Py.mem c s = false -> Py.mem c (Py.remove a s) = false.
Proof.
  induction s as [|b s IH]; [done|]. simpl.
  destruct (Ascii.eqb c b) eqn:Hcb; [done|]. intros H.
  destruct (Ascii.eqb b a); [auto|]. simpl. rewrite Hcb. auto.
Qed.

Lemma clean_app (s t : string) : clean (s +:+ t) = clean s +:+ clean t.
Proof. unfold clean. simpl. by rewrite !remove_app. Qed.

Lemma clean_mem (c : ascii) (s : string) :
  Py.mem c s = false -> Py.mem c (clean s) = false.
Proof. intros H. unfold clean. simpl. by do 3 apply mem_remove. Qed.

Lemma split_first_skip (c : ascii) (a b : string) :
  Py.mem c a = false ->
  Py.split_first c (a +:+ b)
  = match Py.split_first c b with
    | Some (h, t) => Some (a +:+ h, t)
    | None => None
    end.
Proof.
  induction a as [|x a IH]; simpl.
  - intros _. rewrite app_empty_l. by destruct (Py.split_first c b) as [[h t]|].
  - rewrite (Ascii.eqb_sym c x). destruct (Ascii.eqb x c) eqn:Hx; [done|].
    intros Ha. rewrite (IH Ha).
    by destruct (Py.split_first c b) as [[h t]|].
Qed.

Lemma after_question_skip (a b : string) :
  Py.mem "?" a = false -> after_question (a +:+ b) = after_question b.
Proof.
  intros Ha. unfold after_question. rewrite (split_first_skip _ _ _ Ha).
  by destruct (Py.split_first "?" b) as [[h t]|].
Qed.

Lemma query_of_skip (a b : string) :
  Py.mem "?" a = false -> Py.mem "#" a = false ->
  query_of (a +:+ b) = query_of b.
Proof.
  intros Hq Hf. unfold query_of. rewrite (split_first_skip _ _ _ Hf).
  destruct (Py.split_first "#" b) as [[h t]|]; by apply after_question_skip.
Qed.

Lemma lstrip_prefix (chars s : string) :
  exists pre, s = pre +:+ Py.lstrip chars s
              /\ forall c, Py.mem c chars = false -> Py.mem c pre = false.
Proof.
  induction s as [|x s (pre & Hs & Hpre)]; simpl.
  - by exists "".
  - destruct (Py.mem x chars) eqn:Hx.
    + exists (String x pre). split; [by rewrite app_cons, <- Hs|].
      intros c Hc. simpl. destruct (Ascii.eqb_spec c x) as [->|]; [congruence|auto].
    + by exists "".
Qed.

Lemma query_of_clean_lstrip (s : string) :
  query_of (clean (Py.lstrip Urllib._WHATWG_C0_CONTROL_OR_SPACE s)) = query_of (clean s).
Proof.
  destruct (lstrip_prefix Urllib._WHATWG_C0_CONTROL_OR_SPACE s) as (pre & Hs & Hpre).
  rewrite Hs at 2. rewrite clean_app.
  symmetry. apply query_of_skip; apply clean_mem, Hpre; reflexivity.
Qed.

Lemma forallb_str_mem (P : ascii -> bool) (c : ascii) (s : string) :
  Py.forallb_str P s = true -> P c = false -> Py.mem c s = false.
Proof.
  intros Hs Hc. induction s as [|x s IH]; [done|]. simpl in *.
  apply andb_true_iff in Hs as [Hx Hs].
  destruct (Ascii.eqb_spec c x) as [->|]; [congruence|auto].
Qed.

Lemma split_scheme_query (u : string) :
  query_of (snd (Urllib.split_scheme u)) = query_of u.
Proof.
  unfold Urllib.split_scheme.
  destruct (Py.split_first ":" u) as [[pre post]|] eqn:Hs; [|done].
  destruct pre as [|c0 pre]; [done|].
  destruct (Py.is_alpha c0 && _) eqn:Hc; [|done]. simpl.
  apply andb_true_iff in Hc as [_ Hc].
  apply split_first_spec in Hs as [-> _].
  rewrite <- (query_of_skip (String c0 pre +:+ ":") post).
  - by rewrite app_assoc_str.
  - rewrite mem_app. by rewrite (forallb_str_mem _ "?" _ Hc).
  - rewrite mem_app. by rewrite (forallb_str_mem _ "#" _ Hc).
Qed.

Lemma span_until_spec (stop s h t : string) :
  Urllib.span_until stop s = (h, t) ->
  s = h +:+ t /\ forall c, Py.mem c stop = true -> Py.mem c h = false.
Proof.
  revert h. induction s as [|x s IH]; intros h; simpl.
  - by intros [= <- <-].
  - destruct (Py.mem x stop) eqn:Hx.
    + by intros [= <- <-].
    + destruct (Urllib.span_until stop s) as [h' t'].
      intros [= <- <-]. destruct (IH h' eq_refl) as [-> Hh]. split; [done|].
      intros c Hc. simpl. destruct (Ascii.eqb_spec c x) as [->|]; [congruence|auto].
Qed.

Lemma splitnetloc_query (u nl rest : string) :
  Py.startswith "//" u = true ->
  Urllib._splitnetloc u = (nl, rest) ->
  query_of rest = query_of u.
Proof.
  destruct u as [|a [|b u]]; [done| |].
  { unfold Py.startswith. by rewrite andb_false_r. }
  unfold Py.startswith, Urllib._splitnetloc.
  destruct (Ascii.eqb_spec "/" a) as [<-|]; [|done].
  destruct (Ascii.eqb_spec "/" b) as [<-|]; [|done].
  intros _ Hs. apply span_until_spec in Hs as [-> Hnl].
  change (String "/" (String "/" (nl +:+ rest))) with ("//" +:+ (nl +:+ rest)).
  rewrite (query_of_skip "//") by done.
  symmetry. apply query_of_skip; by apply Hnl.
Qed.

(** The query component [urlparse] finds is the text between the first
    question mark and the first number sign, whatever scheme and network
    location come before. *)
Lemma urlparse_query (c1 c2 : string -> bool) (s : string) (r : Urllib.ParseResult) :
  Urllib.urlparse c1 c2 s = Ok r -> Urllib.query r = query_of (clean s).
Proof.
  rewrite <- query_of_clean_lstrip.
  unfold Urllib.urlparse, Urllib.urlsplit.
  fold (clean (Py.lstrip Urllib._WHATWG_C0_CONTROL_OR_SPACE s)).
  set (url1 := clean _).
  rewrite <- (split_scheme_query url1).
  destruct (Urllib.split_scheme url1) as [sch url2]. simpl snd.
  assert (Hnl : forall nl url3 chk,
            (if Py.startswith "//" url2
             then let '(n, u) := Urllib._splitnetloc url2 in
                  (n, u, Urllib.check_brackets c1 n)
             else ("", url2, Ok tt)) = (nl, url3, chk) ->
            query_of url3 = query_of url2).
  { intros nl url3 chk. destruct (Py.startswith "//" url2) eqn:Hst.
    - destruct (Urllib._splitnetloc url2) as [n u] eqn:Hs. intros [= <- <- <-].
      by eapply splitnetloc_query.
    - by intros [= <- <- <-]. }
  destruct (if Py.startswith "//" url2 then _ else _) as [[nl url3] chk].
  rewrite <- (Hnl nl url3 chk eq_refl). clear Hnl.
  destruct chk as [[]|e]; [|done].
  unfold query_of, after_question.
  destruct (Py.split_first "#" url3) as [[u f]|];
    (destruct (Py.split_first "?" _) as [[u' q]|]);
    (destruct (Urllib.check_nfkc c2 nl) as [[]|e]; [|done]);
    match goal with |- context [if ?b then _ else _] => destruct b end;
    try (destruct (Urllib._splitparams _));
    by intros [= <-].
Qed.

(** With a base URL that has neither a question mark nor a number sign,
    the query of the joined URL is the query of the relative URL. *)
Lemma joined_query (c1 c2 : string -> bool) (base u : string) (r : Urllib.ParseResult) :
  Py.mem "?" base = false -> Py.mem "#" base = false ->
  Urllib.urlparse c1 c2 (base +:+ u) = Ok r ->
  Urllib.query r = url_query u.
Proof.
  intros Hq Hf Hr. rewrite (urlparse_query _ _ _ _ Hr), clean_app.
  unfold url_query. apply query_of_skip; by apply clean_mem.
Qed.

(** C3: [create_signed_upload_url] never returns an empty token; and when
    the request is answered successfully with a body whose [url] has no
    [token] query parameter with a non-empty value (none at all, or only
    empty ones), the call raises the storage exception "No token sent by
    the API". The base URL is one without query and fragment, and the
    joined URL one that [urlparse] accepts. *)
Theorem signed_upload_url_needs_a_token (E : environment) (self : bucket)
    (p : string) (w : world) :
  (forall res, (create_signed_upload_url E self p w).1 = Ok res -> token res <> "")
  /\ (forall r o u full_url,
        transport (_client self) (signed_upload_request self p) = Ok r ->
        is_success r = true ->
        json_body r = Some (JObj o) ->
        o !! "url" = Some (JStr u) ->
        Py.mem "?" (base_url (_client self)) = false ->
        Py.mem "#" (base_url (_client self)) = false ->
        Urllib.urlparse (check_bracketed_netloc E) (checknetloc E)
          (base_url (_client self) +:+ u) = Ok full_url ->
        query_values "token" (url_query u) = [] ->
        (create_signed_upload_url E self p w).1
        = Raise (StorageException (JStr "No token sent by the API"))).
Proof.
  rewrite create_signed_upload_url_run. simpl. split.
  - intros res. destruct (answer _ _) as [response|e]; [|done].
    unfold signed_upload_result.
    destruct (response_json response) as [data|e]; [|done].
    destruct (subscript data "url") as [url|e]; [|done].
    destruct (concat_str _ url) as [joined|e]; [|done].
    destruct (Urllib.urlparse _ _ joined) as [full_url|e]; [|done].
    rewrite parse_qs_lookup.
    pose proof (query_values_truthy "token" (Urllib.query full_url)) as Hv.
    destruct (query_values "token" (Urllib.query full_url)) as [|tok rest]; [done|].
    intros [= <-]. simpl. apply Forall_cons in Hv as [Hv _].
    by apply truthy_str_true.
  - intros r o u full_url Hwr Hok Hbody Hu Hq Hf Hparse Hnone.
    unfold answer. rewrite Hwr, check_status_cases, Hok.
    unfold signed_upload_result, response_json. rewrite Hbody. simpl.
    rewrite Hu. simpl. rewrite Hparse, parse_qs_lookup.
    by rewrite (joined_query _ _ _ _ _ Hq Hf Hparse), Hnone.
Qed.

(** A [token] parameter with an empty value is no token. *)
Lemma signed_upload_url_needs_a_token_sample :
  (create_signed_upload_url sample_env
     (sample_bucket (ok_response (JObj {["url" := JStr "/object/upload/sign/b/p?token=&x=1"]})))
     "p" empty_world).1
  = Raise (StorageException (JStr "No token sent by the API")).
Proof.
  set (self := sample_bucket _).
  destruct (signed_upload_url_needs_a_token sample_env self "p" empty_world) as [_ H].
  eapply (H _ {["url" := JStr "/object/upload/sign/b/p?token=&x=1"]});
    reflexivity.
Defined.

Example no_token_at_all :
  (create_signed_upload_url sample_env
     (sample_bucket (ok_response (JObj {["url" := JStr "/object/upload/sign/b/p"]})))
     "p" empty_world).1
  = Raise (StorageException (JStr "No token sent by the API")).
Proof. reflexivity. Qed.

Example token_in_fragment_only :
  (create_signed_upload_url sample_env
     (sample_bucket (ok_response (JObj {["url" := JStr "/object/upload/sign/b/p#x?token=abc"]})))
     "p" empty_world).1
  = Raise (StorageException (JStr "No token sent by the API")).
Proof. reflexivity. Qed.

(** ** Sample runs *)

Example upload_to_signed_url_request :
  sent (upload_to_signed_url sample_env (sample_bucket (ok_response JNull))
          "folder/a b.txt" "t k&n" (FPath "/tmp/a.txt") (Some 1%nat) sample_world).2
  = [{| wr_method := "PUT";
        wr_url := "/object/upload/sign/b/folder/a b.txt?token=t+k%26n";
        wr_headers := {["authorization" := "Bearer k"; "cache-control" := "";
                        "x-upsert" := "false"]};
        wr_json := None;
        wr_files := Some {| mp_filename := "a b.txt"; mp_content := "hello";
                            mp_content_type := "text/plain;charset=UTF-8" |} |}].
Proof. reflexivity. Qed.

Example upload_missing_file :
  upload sample_env
    (sample_bucket (failing_response 409 (Some (JObj {["error" := JStr "Duplicate"]}))))
    "folder/a.txt" (FPath "/tmp/a.txt") None empty_world
  = (Raise (FileNotFoundError "/tmp/a.txt"),
     {| fs := ∅; files := []; dicts := [∅]; sent := [] |}).
Proof. reflexivity. Qed.

(** A reader handed over after two bytes have been read from it: the
    client rewinds it, the part holds the whole file, and the reader is
    at its end afterwards, still open. *)
Example upload_from_a_reader_sends_the_whole_file :
  let w := {| fs := ∅;
              files := [{| fo_data := "hello"; fo_pos := 2; fo_closed := false |}];
              dicts := []; sent := [] |} in
  let call := upload sample_env (sample_bucket (ok_response JNull)) "a.txt"
                (FReader 0) None w in
  wr_files <$> sent call.2
  = [Some {| mp_filename := "a.txt"; mp_content := "hello";
             mp_content_type := "text/plain;charset=UTF-8" |}]
  /\ files call.2 = [{| fo_data := "hello"; fo_pos := 5; fo_closed := false |}].
Proof. split; reflexivity. Qed.

Example upload_conflict_after_open :
  (upload sample_env
     (sample_bucket (failing_response 409 (Some (JObj {["error" := JStr "Duplicate"]}))))
     "folder/a.txt" (FPath "/tmp/a.txt") None sample_world).1
  = Raise (StorageException
             (JObj {["error" := JStr "Duplicate"; "statusCode" := JNum 409]})).
Proof. reflexivity. Qed.

Example download_request :
  sent (download (sample_bucket (ok_response JNull)) "a.png" [("width", SInt 10)]
          empty_world).2
  = [{| wr_method := "GET"; wr_url := "object/b/a.png?width=10"; wr_headers := ∅;
        wr_json := None; wr_files := None |}].
Proof. reflexivity. Qed.

Example list_request :
  sent (list_ sample_env (sample_bucket (ok_response (JArr []))) (Some "folder")
          (Some {["limit" := JNum 5]}) empty_world).2
  = [{| wr_method := "POST"; wr_url := "/object/list/b";
        wr_headers := {["Content-Type" := "application/json"]};
        wr_json := Some (JObj {["limit" := JNum 5; "offset" := JNum 0;
                                "prefix" := JStr "folder"]});
        wr_files := None |}].
Proof. reflexivity. Qed.

Example urlparse_sample :
  Urllib.urlparse (fun _ => true) (fun _ => true) "HTTP://u@h:80/a/b;x/c;p?q=1;2#f?g"
  = Ok {| Urllib.scheme := "http"; Urllib.netloc := "u@h:80"; Urllib.path := "/a/b;x/c";
          Urllib.params := "p"; Urllib.query := "q=1;2"; Urllib.fragment := "f?g" |}.
Proof. reflexivity. Qed.

Example urlparse_bad_bracket :
  Urllib.urlparse (fun _ => true) (fun _ => true) "//[::1/a"
  = Raise (ValueError "Invalid IPv6 URL").
Proof. reflexivity. Qed.

Example parse_qsl_sample :
  Urllib.parse_qsl "a=1&b=&c&=x&token=a%20b+c&%74oken=%zz"
  = [("a", "1"); ("", "x"); ("token", "a b c"); ("token", "%zz")].
Proof. reflexivity. Qed.

Example urlencode_sample :
  urlencode [("width", SInt 100); ("resize", SStr "cover fill"); ("q", SInt (-5));
             ("n", SNone)]
  = "width=100&resize=cover+fill&q=-5&n=None".
Proof. reflexivity. Qed.

Example lstrip_slashes : Py.lstrip "/" "//a/b" = "a/b".
Proof. reflexivity. Qed.

Example rsplit1_sample :
  Py.rsplit1 "/" "folder/sub/image.png" = ["folder/sub"; "image.png"].
Proof. reflexivity. Qed.

(** * Further properties *)

(** ** Every operation as one request *)

Lemma request_then {B} (self : bucket) (method url : string)
    (hdrs : option (gmap string string)) (js : option json)
    (k : Response -> M B) (post : Response -> result B) (w : world) :
  (forall r w0, k r w0 = (post r, w0)) ->
  let wr := {| wr_method := method; wr_url := url; wr_headers := default ∅ hdrs;
               wr_json := js; wr_files := None |} in
  bind (_request self method url hdrs js None) k w
  = (match answer (_client self) wr with
     | Ok r => post r
     | Raise e => Raise e
     end, logged wr w).
Proof.
  intros Hk wr. unfold bind. rewrite request_plain. fold wr.
  destruct (answer (_client self) wr) as [r|e]; [apply Hk|done].
Qed.

Lemma fmapM_run {A B} (f : A -> B) (m : M A) (w : world) :
  fmapM f m w = (result_map f (m w).1, (m w).2).
Proof. unfold fmapM, bind, ret. by destruct (m w) as [[a|e] w']. Qed.

Ltac post_steps :=
  intros; unfold bind, lift, ret, raise, result_map; simpl;
  repeat (match goal with
          | |- context [match ?x with _ => _ end] => destruct x; simpl
          end);
  reflexivity.

(** An operation without a file part is its request followed by the
    interpretation of the answer. *)
Lemma run_plain (E : environment) (self : bucket) (op : operation)
    (wr : wire_request) (w : world) :
  plain_request E self op = Some wr ->
  run E self op w
  = (match answer (_client self) wr with
     | Ok r => plain_result E self op r
     | Raise e => Raise e
     end, logged wr w).
Proof.
  destruct op; simpl; intros [= <-]; rewrite fmapM_run.
  - rewrite create_signed_upload_url_run. simpl. by destruct (answer _ _).
  - unfold create_signed_url.
    erewrite (request_then _ _ _ _ _ _
                (fun r => match response_json r with
                          | Ok data => absolute_signed_url self data
                          | Raise e => Raise e
                          end)); [|post_steps].
    cbn [from_option fst snd]. destruct (answer _ _) as [r|e]; [|done].
    by destruct (response_json r).
  - rewrite create_signed_urls_run. simpl. destruct (answer _ _) as [r|e]; [|done].
    by destruct (response_json r).
  - unfold move. erewrite (request_then _ _ _ _ _ _ response_json); [|done].
    cbn [from_option fst snd]. by destruct (answer _ _).
  - unfold copy. erewrite (request_then _ _ _ _ _ _ response_json); [|done].
    cbn [from_option fst snd]. by destruct (answer _ _).
  - unfold remove. erewrite (request_then _ _ _ _ _ _ response_json); [|done].
    cbn [from_option fst snd]. by destruct (answer _ _).
  - unfold list_. erewrite (request_then _ _ _ _ _ _ response_json); [|done].
    cbn [from_option fst snd]. by destruct (answer _ _).
  - unfold download.
    erewrite (request_then _ _ _ _ _ _ (fun r => Ok (content r))); [|done].
    cbn [from_option fst snd]. by destruct (answer _ _).
Qed.

(** An upload ends in a world that differs from the one after the
    options steps by at most one request and in at most one file object:
    a reader handed in has been read to its end, or a file opened from a
    path has been added, open; without a request the call raises. *)
Lemma upload_outcome_cases (E : environment) (self : bucket) (method url path : string)
    (file : payload) (fo : option nat) (w : world) :
  exists w2,
    fs w2 = fs w /\ sent w2 = sent w /\ dicts w2 = dicts (after_options fo w)
    /\ (files w2 = files w
        \/ (exists h f, file = FReader h /\ files w !! h = Some f /\ fo_closed f = false
               /\ files w2 = <[h := drained f]> (files w))
        \/ (exists p data pos, file = FPath p /\ fs w !! p = Some data
               /\ files w2 = files w ++ [{| fo_data := data; fo_pos := pos;
                                            fo_closed := false |}]))
    /\ ((exists e, upload_outcome E self method url path file fo w = (Raise e, w2))
        \/ (exists wr, upload_outcome E self method url path file fo w
                       = (answer (_client self) wr, logged wr w2))).
Proof.
  unfold upload_outcome.
  destruct (after_options_frame fo w) as (Hfs & Hfiles & Hsent).
  set (w1 := after_options fo w) in *.
  destruct (index_last _) as [name|e]; [|exists w1; eauto 10].
  destruct file as [b|h|p]; simpl.
  - exists w1. destruct (_ !! "content-type"); [|eauto 10].
    change (read_source (SrcBytes b) w1) with (Ok b, w1). eauto 10.
  - destruct (_ !! "content-type"); [|exists w1; eauto 10].
    unfold read_source. rewrite Hfiles.
    destruct (files w !! h) as [f|] eqn:Hh; [|exists w1; eauto 10].
    destruct (fo_closed f) eqn:Hc; [exists w1; eauto 10|].
    eexists {| fs := fs w1; files := <[h := drained f]> (files w);
               dicts := dicts w1; sent := sent w1 |}.
    simpl. eauto 15.
  - destruct (fs w !! p) as [data|] eqn:Hp; [|exists w1; eauto 10].
    destruct (_ !! "content-type").
    + rewrite read_opened. exists (consumed data w1). simpl. rewrite Hfiles. eauto 15.
    + exists (opened data w1). simpl. rewrite Hfiles. eauto 15.
Qed.



Lemma run_upload (E : environment) (self : bucket) (op : operation) (w : world) :
  is_upload op = true ->
  exists method url path file fo,
    run E self op w
    = (result_map OResponse (upload_outcome E self method url path file fo w).1,
       (upload_outcome E self method url path file fo w).2).
Proof.
  destruct op; try done; intros _; simpl; rewrite fmapM_run.
  - rewrite upload_to_signed_url_run. eauto 10.
  - rewrite upload_run. eauto 10.
Qed.

Lemma plain_request_some (E : environment) (self : bucket) (op : operation) :
  is_upload op = false -> exists wr, plain_request E self op = Some wr.
Proof. destruct op; simpl; try done; eauto. Qed.

(** X1: every operation sends at most one request. When none goes out the
    call raises (only an upload can end this way); when one goes out and
    the transport itself raises, that exception reaches the caller as it
    is: there is no retry and no wrapping. *)
Theorem at_most_one_request (E : environment) (self : bucket) (op : operation)
    (w : world) :
  (sent (run E self op w).2 = sent w
   /\ is_upload op = true
   /\ exists e, (run E self op w).1 = Raise e)
  \/ (exists wr,
        sent (run E self op w).2 = sent w ++ [wr]
        /\ forall e, transport (_client self) wr = Raise e ->
                     (run E self op w).1 = Raise e).
Proof.
  destruct (is_upload op) eqn:Hup.
  - destruct (run_upload E self op w Hup) as (method & url & path & file & fo & ->).
    destruct (upload_outcome_cases E self method url path file fo w)
      as (w2 & _ & Hsent & _ & _ & [[e ->]|[wr ->]]); simpl.
    + left. eauto.
    + right. exists wr. rewrite Hsent. split; [done|].
      intros e He. unfold answer. by rewrite He.
  - destruct (plain_request_some E self op Hup) as [wr Hwr].
    right. exists wr. rewrite (run_plain E self op wr w Hwr). simpl.
    split; [done|]. intros e He. unfold answer. by rewrite He.
Qed.


(** ** The answers of the signing operations *)

(** The status check passes a response on exactly when the transport
    gave it and its status is a success. *)
Lemma answer_ok (c : SupaSyncClient) (wr : wire_request) (r : Response) :
  answer c wr = Ok r <-> transport c wr = Ok r /\ is_success r = true.
Proof.
  unfold answer. destruct (transport c wr) as [r0|e]; [|by split; [|intros []]].
  rewrite check_status_cases. destruct (is_success r0) eqn:Hs.
  - split; [by intros [= <-]|by intros [[= <-] _]].
  - split; [by destruct (json_body r0) as [[]|]|].
    intros [[= <-] Hr]. congruence.
Qed.

Lemma create_signed_url_run (self : bucket) (p : string) (expires_in : Z)
    (options : gmap string json) (w : world) :
  let wr := {| wr_method := "POST";
               wr_url := "/object/sign/" +:+ _get_final_path self p;
               wr_headers := ∅;
               wr_json := Some (JObj (sign_body {["expiresIn" := JStr (pretty expires_in)]}
                                                ["download"; "transform"] options));
               wr_files := None |} in
  create_signed_url self p expires_in options w
  = (match answer (_client self) wr with
     | Ok r => match response_json r with
               | Ok data => absolute_signed_url self data
               | Raise e => Raise e
               end
     | Raise e => Raise e
     end, logged wr w).
Proof.
  intros wr. unfold create_signed_url.
  erewrite (request_then _ _ _ _ _ _
              (fun r => match response_json r with
                        | Ok data => absolute_signed_url self data
                        | Raise e => Raise e
                        end)); [done|post_steps].
Qed.

(** X3: [create_signed_url] returns a value exactly when its one request
    is answered with a success status and a body that decodes to an
    object carrying a string under [signedURL]; the value is then that
    object with [signedURL] replaced by the base URL followed by the old
    value without its leading slashes. Any other answer (a body that is
    an array, an object without the key, a [signedURL] that is no
    string) makes the call raise. *)
Theorem create_signed_url_succeeds_iff (self : bucket) (p : string) (expires_in : Z)
    (options : gmap string json) (w : world) (v : json) :
  (create_signed_url self p expires_in options w).1 = Ok v
  <-> exists wr r item,
        sent (create_signed_url self p expires_in options w).2 = sent w ++ [wr]
        /\ transport (_client self) wr = Ok r
        /\ is_success r = true
        /\ json_body r = Some item
        /\ made_absolute self item v.
Proof.
  rewrite create_signed_url_run. cbn [fst snd logged sent]. split.
  - destruct (answer _ _) as [r|e] eqn:Ha; [|done].
    apply answer_ok in Ha as [Ht Hs]. unfold response_json.
    destruct (json_body r) as [item|] eqn:Hj; [|done].
    intros Hv%absolute_signed_url_ok. eauto 10.
  - intros (wr & r & item & Hwr & Ht & Hs & Hj & Hv).
    apply app_inj_tail in Hwr as [_ <-].
    assert (Ha : answer (_client self)
                   {| wr_method := "POST";
                      wr_url := "/object/sign/" +:+ _get_final_path self p;
                      wr_headers := ∅;
                      wr_json := Some (JObj (sign_body
                                   {["expiresIn" := JStr (pretty expires_in)]}
                                   ["download"; "transform"] options));
                      wr_files := None |} = Ok r) by by apply answer_ok.
    rewrite Ha. unfold response_json. rewrite Hj. by apply absolute_signed_url_ok.
Qed.

(** X4: [create_signed_urls] returns a value exactly in two cases: the
    body of the successful answer is an array whose every item is an
    object with a string [signedURL], and the value is the array of the
    rewritten items in the same order; or the body is an empty object or
    an empty string, over which the loop does not run, and the value is
    that body. One item of another shape makes the whole call raise. *)
Theorem create_signed_urls_succeeds_iff (self : bucket) (paths : list string)
    (expires_in : Z) (options : gmap string json) (w : world) (v : json) :
  (create_signed_urls self paths expires_in options w).1 = Ok v
  <-> exists wr r data,
        sent (create_signed_urls self paths expires_in options w).2 = sent w ++ [wr]
        /\ transport (_client self) wr = Ok r
        /\ is_success r = true
        /\ json_body r = Some data
        /\ ((exists items items', data = JArr items /\ v = JArr items'
               /\ Forall2 (made_absolute self) items items')
            \/ ((data = JObj ∅ \/ data = JStr "") /\ v = data)).
Proof.
  rewrite create_signed_urls_run. cbn [fst snd logged sent].
  assert (Hdata : forall data, rewrite_data self data = Ok v
            <-> ((exists items items', data = JArr items /\ v = JArr items'
                    /\ Forall2 (made_absolute self) items items')
                 \/ ((data = JObj ∅ \/ data = JStr "") /\ v = data))).
  { intros data. unfold rewrite_data. split.
    - destruct data as [| | |s|items|o]; try done.
      + destruct s; [|done]. intros [= <-]. eauto.
      + destruct (rewrite_items self items) as [items'|e] eqn:Hi; [|done].
        intros [= <-]. apply rewrite_items_iff in Hi. eauto 10.
      + simpl. case_bool_decide as Ho; [|done].
        apply map_size_empty_inv in Ho as ->. intros [= <-]. eauto.
    - intros [(items & items' & -> & -> & Hi)|[[-> | ->] ->]]; [|done..].
      apply rewrite_items_iff in Hi. by rewrite Hi. }
  split.
  - destruct (answer _ _) as [r|e] eqn:Ha; [|done].
    apply answer_ok in Ha as [Ht Hs]. unfold response_json.
    destruct (json_body r) as [data|] eqn:Hj; [|done].
    intros Hv%Hdata. eauto 10.
  - intros (wr & r & data & Hwr & Ht & Hs & Hj & Hv).
    apply app_inj_tail in Hwr as [_ <-].
    assert (Ha : answer (_client self)
                   {| wr_method := "POST"; wr_url := "/object/sign/" +:+ id self;
                      wr_headers := ∅;
                      wr_json := Some (JObj (sign_body
                                   {["paths" := JArr (JStr <$> paths);
                                     "expiresIn" := JStr (pretty expires_in)]}
                                   ["download"] options));
                      wr_files := None |} = Ok r) by by apply answer_ok.
    rewrite Ha. unfold response_json. rewrite Hj. by apply Hdata.
Qed.

(** ** What the requests carry *)

Lemma sign_step_lookup (options js : gmap string json) (k k' : string) :
  match options !! k with
  | Some v => if truthy v then <[k := v]> js else js
  | None => js
  end !! k'
  = if bool_decide (k' = k)
    then match options !! k with
         | Some v => if truthy v then Some v else js !! k
         | None => js !! k
         end
    else js !! k'.
Proof.
  case_bool_decide as Hk; [subst k'|];
    destruct (options !! k) as [v|]; try destruct (truthy v); try done.
  - by rewrite lookup_insert_eq.
  - by rewrite lookup_insert_ne.
Qed.

Lemma sign_body_download_transform (base options : gmap string json) (k : string) :
  base !! "download" = None -> base !! "transform" = None ->
  sign_body base ["download"; "transform"] options !! k
  = if bool_decide (k = "download" \/ k = "transform")
    then match options !! k with
         | Some v => if truthy v then Some v else None
         | None => None
         end
    else base !! k.
Proof.
  intros Hd Ht. unfold sign_body. cbn [foldl].
  rewrite sign_step_lookup. case_bool_decide as H2; [subst k|].
  - rewrite bool_decide_true; [|by right].
    rewrite sign_step_lookup, bool_decide_false, Ht; [|done].
    by destruct (options !! "transform") as [v|]; [destruct (truthy v)|].
  - rewrite sign_step_lookup. case_bool_decide as H1; [subst k|].
    + rewrite bool_decide_true; [|by left]. rewrite Hd.
      by destruct (options !! "download") as [v|]; [destruct (truthy v)|].
    + rewrite bool_decide_false; [done|by intros [? | ?]].
Qed.

Lemma sign_body_download (base options : gmap string json) (k : string) :
  base !! "download" = None ->
  sign_body base ["download"] options !! k
  = if bool_decide (k = "download")
    then match options !! k with
         | Some v => if truthy v then Some v else None
         | None => None
         end
    else base !! k.
Proof.
  intros Hd. unfold sign_body. cbn [foldl].
  rewrite sign_step_lookup. case_bool_decide as H1; [subst k|done].
  rewrite Hd. by destruct (options !! "download") as [v|]; [destruct (truthy v)|].
Qed.

(** X5: the body of the [create_signed_url] request has [expiresIn] as
    the decimal text of the number given, whatever the options say;
    [download] and [transform] are forwarded with the caller's value when
    that value is true in Python's sense and left out when it is absent
    or false (an empty string, zero, [False], [None], an empty object);
    no other option reaches the service. *)
Theorem signed_url_request_body (self : bucket) (p : string) (expires_in : Z)
    (options : gmap string json) (w : world) :
  exists body,
    sent (create_signed_url self p expires_in options w).2
    = sent w ++ [{| wr_method := "POST";
                    wr_url := "/object/sign/" +:+ id self +:+ "/" +:+ p;
                    wr_headers := ∅; wr_json := Some (JObj body); wr_files := None |}]
    /\ body !! "expiresIn" = Some (JStr (pretty expires_in))
    /\ (forall k, k = "download" \/ k = "transform" ->
          body !! k = match options !! k with
                      | Some v => if truthy v then Some v else None
                      | None => None
                      end)
    /\ (forall k, k <> "expiresIn" -> k <> "download" -> k <> "transform" ->
          body !! k = None).
Proof.
  rewrite create_signed_url_run. cbn [snd logged sent].
  eexists. split; [reflexivity|].
  split; [|split]; intros; rewrite sign_body_download_transform; try done.
  - by rewrite bool_decide_true.
  - rewrite bool_decide_false; [|by intros [? | ?]]. by rewrite lookup_singleton_ne.
Qed.

(** X6: the body of the [create_signed_urls] request has the paths as
    given (in order, without the bucket in front) and [expiresIn] as
    text; a true [download] option is forwarded; a [transform] option is
    never forwarded, whatever its value. *)
Theorem signed_urls_request_body (self : bucket) (paths : list string)
    (expires_in : Z) (options : gmap string json) (w : world) :
  exists body,
    sent (create_signed_urls self paths expires_in options w).2
    = sent w ++ [{| wr_method := "POST"; wr_url := "/object/sign/" +:+ id self;
                    wr_headers := ∅; wr_json := Some (JObj body); wr_files := None |}]
    /\ body !! "paths" = Some (JArr (JStr <$> paths))
    /\ body !! "expiresIn" = Some (JStr (pretty expires_in))
    /\ body !! "download" = match options !! "download" with
                            | Some v => if truthy v then Some v else None
                            | None => None
                            end
    /\ (forall k, k <> "paths" -> k <> "expiresIn" -> k <> "download" ->
          body !! k = None).
Proof.
  rewrite create_signed_urls_run. cbn [snd logged sent].
  eexists. split; [reflexivity|].
  repeat split; intros; rewrite sign_body_download; try done.
  rewrite bool_decide_false; [|done]. by simplify_map_eq.
Qed.

(** ** The operations that return the decoded body *)

Lemma json_call_ok (c : SupaSyncClient) (wr : wire_request) (v : json) :
  match answer c wr with
  | Ok r => response_json r
  | Raise e => Raise e
  end = Ok v
  <-> exists r, transport c wr = Ok r /\ is_success r = true /\ json_body r = Some v.
Proof.
  split.
  - destruct (answer c wr) as [r|e] eqn:Ha; [|done].
    apply answer_ok in Ha as [Ht Hs]. unfold response_json.
    destruct (json_body r) eqn:Hj; [|done]. intros [= <-]. eauto.
  - intros (r & Ht & Hs & Hj).
    assert (Ha : answer c wr = Ok r) by by apply answer_ok.
    rewrite Ha. unfold response_json. by rewrite Hj.
Qed.

Lemma move_run (self : bucket) (from_path to_path : string) (w : world) :
  let wr := {| wr_method := "POST"; wr_url := "/object/move"; wr_headers := ∅;
               wr_json := Some (JObj {["bucketId" := JStr (id self);
                                       "sourceKey" := JStr from_path;
                                       "destinationKey" := JStr to_path]});
               wr_files := None |} in
  move self from_path to_path w
  = (match answer (_client self) wr with
     | Ok r => response_json r
     | Raise e => Raise e
     end, logged wr w).
Proof.
  intros wr. unfold move. by erewrite (request_then _ _ _ _ _ _ response_json).
Qed.

Lemma copy_run (self : bucket) (from_path to_path : string) (w : world) :
  let wr := {| wr_method := "POST"; wr_url := "/object/copy"; wr_headers := ∅;
               wr_json := Some (JObj {["bucketId" := JStr (id self);
                                       "sourceKey" := JStr from_path;
                                       "destinationKey" := JStr to_path]});
               wr_files := None |} in
  copy self from_path to_path w
  = (match answer (_client self) wr with
     | Ok r => response_json r
     | Raise e => Raise e
     end, logged wr w).
Proof.
  intros wr. unfold copy. by erewrite (request_then _ _ _ _ _ _ response_json).
Qed.

Lemma remove_run (self : bucket) (paths : list string) (w : world) :
  let wr := {| wr_method := "DELETE"; wr_url := "/object/" +:+ id self;
               wr_headers := ∅;
               wr_json := Some (JObj {["prefixes" := JArr (JStr <$> paths)]});
               wr_files := None |} in
  remove self paths w
  = (match answer (_client self) wr with
     | Ok r => response_json r
     | Raise e => Raise e
     end, logged wr w).
Proof.
  intros wr. unfold remove. by erewrite (request_then _ _ _ _ _ _ response_json).
Qed.

Lemma list_run (E : environment) (self : bucket) (path : option string)
    (options : option (gmap string json)) (w : world) :
  let wr := {| wr_method := "POST"; wr_url := "/object/list/" +:+ id self;
               wr_headers := {["Content-Type" := "application/json"]};
               wr_json := Some (JObj (<["prefix" := JStr (default "" path)]>
                                        (default ∅ options ∪ DEFAULT_SEARCH_OPTIONS E)));
               wr_files := None |} in
  list_ E self path options w
  = (match answer (_client self) wr with
     | Ok r => response_json r
     | Raise e => Raise e
     end, logged wr w).
Proof.
  intros wr. unfold list_. by erewrite (request_then _ _ _ _ _ _ response_json).
Qed.

Lemma download_run (self : bucket) (p : string) (options : list (string * scalar))
    (w : world) :
  let wr := {| wr_method := "GET";
               wr_url := (if transform_requested options
                          then "render/image/authenticated" else "object")
                         +:+ "/" +:+ _get_final_path self p +:+ query_string options;
               wr_headers := ∅; wr_json := None; wr_files := None |} in
  download self p options w
  = (match answer (_client self) wr with
     | Ok r => Ok (content r)
     | Raise e => Raise e
     end, logged wr w).
Proof.
  intros wr. unfold download.
  by erewrite (request_then _ _ _ _ _ _ (fun r => Ok (content r))).
Qed.

(** X7: [move] and [copy] send the same body to two endpoints: the
    bucket under [bucketId] and the two paths exactly as given (the
    bucket is not put in front of them, unlike in the object URLs).
    Either returns the decoded body of a successful answer, whatever JSON
    value that is, and returns nothing otherwise; if the transport
    answers both requests alike, the two calls end alike. *)
Theorem move_and_copy_differ_in_the_endpoint (self : bucket)
    (from_path to_path : string) (w : world) :
  exists body : gmap string json,
    let rq url := {| wr_method := "POST"; wr_url := url; wr_headers := ∅;
                     wr_json := Some (JObj body); wr_files := None |} in
    sent (move self from_path to_path w).2 = sent w ++ [rq "/object/move"]
    /\ sent (copy self from_path to_path w).2 = sent w ++ [rq "/object/copy"]
    /\ body !! "bucketId" = Some (JStr (id self))
    /\ body !! "sourceKey" = Some (JStr from_path)
    /\ body !! "destinationKey" = Some (JStr to_path)
    /\ size body = 3%nat
    /\ (forall v, (move self from_path to_path w).1 = Ok v
          <-> exists r, transport (_client self) (rq "/object/move") = Ok r
                /\ is_success r = true /\ json_body r = Some v)
    /\ (forall v, (copy self from_path to_path w).1 = Ok v
          <-> exists r, transport (_client self) (rq "/object/copy") = Ok r
                /\ is_success r = true /\ json_body r = Some v)
    /\ (transport (_client self) (rq "/object/move")
        = transport (_client self) (rq "/object/copy") ->
        (move self from_path to_path w).1 = (copy self from_path to_path w).1).
Proof.
  exists {["bucketId" := JStr (id self); "sourceKey" := JStr from_path;
           "destinationKey" := JStr to_path]}.
  intros rq. rewrite move_run, copy_run. cbn [fst snd logged sent].
  split; [done|]. split; [done|].
  split; [done|]. split; [done|]. split; [done|]. split; [done|].
  split; [intros v; apply json_call_ok|].
  split; [intros v; apply json_call_ok|].
  intros Ht. unfold answer, rq in *. by rewrite Ht.
Qed.

(** X8: [remove] sends one DELETE request to the bucket whose
    [prefixes] are the paths as given, in order and without the bucket in
    front, also when the list is empty: the empty list is not short-cut.
    It returns the decoded body of a successful answer and nothing
    otherwise. *)
Theorem remove_sends_the_paths_as_given (self : bucket) (paths : list string)
    (w : world) :
  let wr := {| wr_method := "DELETE"; wr_url := "/object/" +:+ id self;
               wr_headers := ∅;
               wr_json := Some (JObj {["prefixes" := JArr (JStr <$> paths)]});
               wr_files := None |} in
  sent (remove self paths w).2 = sent w ++ [wr]
  /\ (forall v, (remove self paths w).1 = Ok v
        <-> exists r, transport (_client self) wr = Ok r
              /\ is_success r = true /\ json_body r = Some v)
  /\ (paths = [] -> wr_json wr = Some (JObj {["prefixes" := JArr []]})).
Proof.
  intros wr. rewrite remove_run. cbn [fst snd logged sent]. fold wr.
  split; [done|]. split; [intros v; apply json_call_ok|by intros ->].
Qed.

(** X9: in the body of the [list] request the [prefix] is always the
    path argument (the empty string when it is missing or empty), even
    when the caller's options carry a [prefix] of their own; every other
    key has the caller's value when the options give one and the default
    search option otherwise. The request has the one header
    [Content-Type]. *)
Theorem list_body_layers (E : environment) (self : bucket) (path : option string)
    (options : option (gmap string json)) (w : world) :
  exists body,
    sent (list_ E self path options w).2
    = sent w ++ [{| wr_method := "POST"; wr_url := "/object/list/" +:+ id self;
                    wr_headers := {["Content-Type" := "application/json"]};
                    wr_json := Some (JObj body); wr_files := None |}]
    /\ body !! "prefix" = Some (JStr (match path with Some p => p | None => "" end))
    /\ (forall k, k <> "prefix" ->
          body !! k = match options with
                      | Some o => match o !! k with
                                  | Some v => Some v
                                  | None => DEFAULT_SEARCH_OPTIONS E !! k
                                  end
                      | None => DEFAULT_SEARCH_OPTIONS E !! k
                      end)
    /\ (forall v, (list_ E self path options w).1 = Ok v
          <-> exists r,
                transport (_client self)
                  {| wr_method := "POST"; wr_url := "/object/list/" +:+ id self;
                     wr_headers := {["Content-Type" := "application/json"]};
                     wr_json := Some (JObj body); wr_files := None |} = Ok r
                /\ is_success r = true /\ json_body r = Some v).
Proof.
  rewrite list_run. cbn [fst snd logged sent].
  eexists. split; [reflexivity|]. split; [|split].
  - rewrite lookup_insert_eq. by destruct path.
  - intros k Hk. rewrite lookup_insert_ne by done.
    rewrite lookup_union. destruct options as [o|]; simpl.
    + by destruct (o !! k), (DEFAULT_SEARCH_OPTIONS E !! k).
    + rewrite lookup_empty. by destruct (DEFAULT_SEARCH_OPTIONS E !! k).
  - intros v. apply json_call_ok.
Qed.

(** X10: [download] returns the raw content of a successful answer
    without decoding it, so a body that is no JSON is returned like any
    other. Its URL is relative without a leading slash: the endpoint
    ([render/image/authenticated] exactly when a true [transform] option
    is given, [object] otherwise), the bucket, the path, and the same
    query string that [get_public_url] appends for these options. *)
Theorem download_returns_the_content (self : bucket) (p : string)
    (options : list (string * scalar)) (w : world) :
  exists endpoint public_endpoint tail wr,
    sent (download self p options w).2 = sent w ++ [wr]
    /\ wr = {| wr_method := "GET"; wr_url := endpoint +:+ "/" +:+ tail;
               wr_headers := ∅; wr_json := None; wr_files := None |}
    /\ get_public_url self p options
       = base_url (_client self) +:+ public_endpoint +:+ "/public/" +:+ tail
    /\ (transform_requested options = true ->
          endpoint = "render/image/authenticated" /\ public_endpoint = "render/image")
    /\ (transform_requested options = false ->
          endpoint = "object" /\ public_endpoint = "object")
    /\ (options = [] -> tail = id self +:+ "/" +:+ p)
    /\ (forall b, (download self p options w).1 = Ok b
          <-> exists r, transport (_client self) wr = Ok r
                /\ is_success r = true /\ b = content r).
Proof.
  rewrite download_run. cbn [fst snd logged sent]. unfold get_public_url.
  exists (if transform_requested options then "render/image/authenticated" else "object"),
         (if transform_requested options then "render/image" else "object"),
         (_get_final_path self p +:+ query_string options).
  eexists. split; [reflexivity|]. split; [reflexivity|]. split; [done|].
  split; [by intros ->|]. split; [by intros ->|].
  split; [intros ->; unfold _get_final_path; by rewrite !app_assoc_str, app_empty_r|].
  intros b. split.
  - destruct (answer _ _) as [r|e] eqn:Ha; [|done].
    apply answer_ok in Ha as [Ht Hs]. intros [= <-]. eauto.
  - intros (r & Ht & Hs & ->).
    assert (Ha : answer (_client self)
              {| wr_method := "GET";
                 wr_url := (if transform_requested options
                            then "render/image/authenticated" else "object")
                           +:+ "/" +:+ _get_final_path self p +:+ query_string options;
                 wr_headers := ∅; wr_json := None; wr_files := None |} = Ok r)
      by by apply answer_ok.
    by rewrite Ha.
Qed.



(** ** Edges of the two uploads *)

Lemma upload_outcome_missing (E : environment) (self : bucket) (method url path : string)
    (fo : option nat) (w : world) (p : string) :
  fs w !! p = None ->
  upload_outcome E self method url path (FPath p) fo w
  = (Raise (FileNotFoundError p), after_options fo w).
Proof.
  intros Hp. unfold upload_outcome.
  destruct (index_last_rsplit1 path) as (name & -> & _). by rewrite Hp.
Qed.

(** X12: an upload from a path that does not exist raises
    [FileNotFoundError] for that path and sends nothing; no file object
    is created. The caller's options have been rewritten by then: the
    cache-control entry of the dictionary passed in is already
    prefixed. *)
Theorem upload_of_a_missing_file (E : environment) (self : bucket)
    (path token : string) (fo : option nat) (w : world) (p : string) :
  fs w !! p = None ->
  let by_path := upload E self path (FPath p) fo w in
  let signed := upload_to_signed_url E self path token (FPath p) fo w in
  by_path.1 = Raise (FileNotFoundError p)
  /\ signed.1 = Raise (FileNotFoundError p)
  /\ sent by_path.2 = sent w /\ sent signed.2 = sent w
  /\ files by_path.2 = files w /\ files signed.2 = files w
  /\ forall l d, fo = Some l -> dicts w !! l = Some d ->
       dicts by_path.2 !! l = Some (rewritten d)
       /\ dicts signed.2 !! l = Some (rewritten d).
Proof.
  intros Hp by_path signed. subst by_path signed.
  rewrite upload_run, upload_to_signed_url_run.
  rewrite !upload_outcome_missing by done. cbn [fst snd].
  destruct (after_options_frame fo w) as (_ & Hfiles & Hsent).
  repeat split; try done.
  all: intros; subst fo; by apply after_options_caller.
Qed.

Lemma upload_of_a_missing_file_sample :
  (upload sample_env (sample_bucket (ok_response JNull)) "dir/a.txt"
     (FPath "/tmp/none") (Some 0%nat) sample_world).1
  = Raise (FileNotFoundError "/tmp/none")
  /\ dicts (upload sample_env (sample_bucket (ok_response JNull)) "dir/a.txt"
              (FPath "/tmp/none") (Some 0%nat) sample_world).2 !! 0%nat
     = Some (rewritten {["cache-control" := "3600"; "x-upsert" := "true"]}).
Proof.
  pose proof (upload_of_a_missing_file sample_env (sample_bucket (ok_response JNull))
                "dir/a.txt" "t" (Some 0%nat) sample_world "/tmp/none" eq_refl) as H.
  cbv zeta in H. destruct H as (H1 & _ & _ & _ & _ & _ & H2).
  split; [exact H1|]. exact (proj1 (H2 0%nat _ eq_refl eq_refl)).
Defined.

Lemma rewritten_twice (d : gmap string string) (v : string) :
  d !! "cache-control" = Some v -> v <> "" ->
  rewritten d = <["cache-control" := "max-age=" +:+ v]> d
  /\ rewritten (rewritten d)
     = <["cache-control" := "max-age=" +:+ ("max-age=" +:+ v)]> d.
Proof.
  intros Hv Hne. assert (Hr : rewritten d = <["cache-control" := "max-age=" +:+ v]> d).
  { unfold rewritten. rewrite Hv. by destruct v. }
  split; [done|]. rewrite Hr. unfold rewritten at 1.
  rewrite lookup_insert_eq. cbn [Py.truthy_str]. by rewrite insert_insert_eq.
Qed.

(** X13: the rewrite of the caller's options adds up. When one options
    dictionary with a non-empty cache-control value [v] is used for two
    uploads in a row, it holds [max-age=max-age=v] afterwards, and that is
    the cache-control header of the second request. *)
Theorem reused_options_are_prefixed_twice (E : environment) (self : bucket)
    (path1 path2 : string) (file1 file2 : payload) (l : nat)
    (d : gmap string string) (v : string) (w : world) :
  dicts w !! l = Some d ->
  d !! "cache-control" = Some v ->
  v <> "" ->
  let w1 := (upload E self path1 file1 (Some l) w).2 in
  let second := upload E self path2 file2 (Some l) w1 in
  dicts second.2 !! l
  = Some (<["cache-control" := "max-age=" +:+ ("max-age=" +:+ v)]> d)
  /\ forall wr, sent second.2 = sent w1 ++ [wr] ->
       wr_headers wr !! "cache-control" = Some ("max-age=" +:+ ("max-age=" +:+ v)).
Proof.
  intros Hd Hv Hne w1 second. subst second w1.
  destruct (rewritten_twice d v Hv Hne) as [Hr1 Hr2].
  rewrite !upload_run.
  set (w1 := (upload_outcome E self "POST" _ path1 file1 (Some l) w).2).
  assert (H1 : dicts w1 !! l = Some (rewritten d)).
  { unfold w1. rewrite upload_outcome_dicts. by apply after_options_caller. }
  split.
  - rewrite upload_outcome_dicts, (after_options_caller l _ w1 H1). by rewrite Hr2.
  - intros wr Hwr.
    apply upload_outcome_sent in Hwr as (name & data & ctype & _ & _ & _ & -> & _).
    unfold upload_request. cbn [wr_headers].
    rewrite lookup_delete_ne by done. rewrite merged_lookup.
    unfold options_of. rewrite H1. cbn [from_option]. unfold Datatypes.id. rewrite Hr2.
    by rewrite lookup_insert_eq.
Qed.

Lemma reused_options_are_prefixed_twice_sample :
  dicts (upload sample_env (sample_bucket (ok_response JNull)) "b.txt" (FBytes "y")
           (Some 0%nat)
           (upload sample_env (sample_bucket (ok_response JNull)) "a.txt" (FBytes "x")
              (Some 0%nat) sample_world).2).2 !! 0%nat
  = Some (<["cache-control" := "max-age=max-age=3600"]>
            {["cache-control" := "3600"; "x-upsert" := "true"]}).
Proof.
  refine (proj1 (reused_options_are_prefixed_twice sample_env
                   (sample_bucket (ok_response JNull)) "a.txt" "b.txt"
                   (FBytes "x") (FBytes "y") 0%nat
                   {["cache-control" := "3600"; "x-upsert" := "true"]} "3600"
                   sample_world eq_refl eq_refl _)).
  discriminate.
Defined.

Lemma after_options_dicts (fo : option nat) (w : world) :
  match fo with
  | None => dicts (after_options fo w) = dicts w ++ [∅]
  | Some l =>
      length (dicts (after_options fo w)) = length (dicts w)
      /\ (forall l', l' <> l -> dicts (after_options fo w) !! l' = dicts w !! l')
      /\ forall d, dicts w !! l = Some d ->
           dicts (after_options fo w) !! l = Some (rewritten d)
  end.
Proof.
  destruct fo as [l|]; [|done].
  split; [|split].
  - unfold after_options. destruct (truthy_opt _); [|done]. simpl.
    by rewrite length_alter.
  - intros l' Hl. unfold after_options. destruct (truthy_opt _); [|done]. simpl.
    by rewrite list_lookup_alter_ne.
  - intros d Hd. by apply after_options_caller.
Qed.

(** X14: what an upload does to the option dictionaries. Called without
    options it allocates one new empty dictionary and touches no other.
    Called with the caller's dictionary it allocates none, leaves every
    other dictionary as it was, and in the caller's dictionary changes at
    most the cache-control entry: every other key keeps its value, and a
    dictionary without a cache-control entry, or with an empty one, is
    unchanged. This holds however the upload ends. *)
Theorem uploads_touch_one_entry (E : environment) (self : bucket)
    (path token : string) (file : payload) (fo : option nat) (w : world) :
  let after1 := dicts (upload E self path file fo w).2 in
  let after2 := dicts (upload_to_signed_url E self path token file fo w).2 in
  after1 = after2
  /\ match fo with
     | None => after1 = dicts w ++ [∅]
     | Some l =>
         length after1 = length (dicts w)
         /\ (forall l', l' <> l -> after1 !! l' = dicts w !! l')
         /\ forall d, dicts w !! l = Some d ->
              exists d', after1 !! l = Some d'
                /\ (forall k, k <> "cache-control" -> d' !! k = d !! k)
                /\ (d !! "cache-control" = None \/ d !! "cache-control" = Some "" ->
                    d' = d)
     end.
Proof.
  intros after1 after2. subst after1 after2.
  rewrite upload_run, upload_to_signed_url_run, !upload_outcome_dicts.
  split; [done|].
  pose proof (after_options_dicts fo w) as H. destruct fo as [l|]; [|done].
  destruct H as (Hlen & Hother & Hl). split; [done|]. split; [done|].
  intros d Hd. exists (rewritten d). split; [by apply Hl|].
  unfold rewritten. split.
  - intros k Hk. destruct (d !! "cache-control") as [v|]; [|done].
    destruct (Py.truthy_str v); [|done]. by rewrite lookup_insert_ne.
  - by intros [-> | ->].
Qed.



(** ** Percent encoding and decoding *)

Lemma replace_app (a b : ascii) (s t : string) :
  Py.replace a b (s +:+ t) = Py.replace a b s +:+ Py.replace a b t.
Proof. induction s as [|c s IH]; [done|]. rewrite !app_cons. simpl. by rewrite IH. Qed.

(** One byte through [quote] without safe characters and back. *)
Lemma unquote_quote_byte (c : ascii) (rest : string) :
  Urllib.unquote (Py.replace "+" " " (Urllib.quote_byte "" c +:+ rest))
  = String c (Urllib.unquote (Py.replace "+" " " rest)).
Proof. destruct c as [[] [] [] [] [] [] [] []]; reflexivity. Qed.

(** One byte through the branch of [quote_plus] for a string with a
    space, and back. *)
Lemma unquote_quote_byte_space (c : ascii) (rest : string) :
  Urllib.unquote (Py.replace "+" " "
    (Py.replace " " "+" (Urllib.quote_byte " " c) +:+ rest))
  = String c (Urllib.unquote (Py.replace "+" " " rest)).
Proof. destruct c as [[] [] [] [] [] [] [] []]; reflexivity. Qed.

Lemma unquote_quote_plus (s : string) :
  Urllib.unquote (Py.replace "+" " " (Urllib.quote_plus s)) = s.
Proof.
  unfold Urllib.quote_plus. destruct (negb (Py.mem " " s)).
  - induction s as [|c s IH]; [done|]. simpl.
    by rewrite unquote_quote_byte, IH.
  - induction s as [|c s IH]; [done|]. simpl.
    by rewrite replace_app, unquote_quote_byte_space, IH.
Qed.

Lemma quote_byte_no_separator (c x : ascii) :
  Py.mem c "&=#?" = true \/ In c Urllib._UNSAFE_URL_BYTES_TO_REMOVE ->
  Py.mem c (Urllib.quote_byte "" x) = false
  /\ Py.mem c (Py.replace " " "+" (Urllib.quote_byte " " x)) = false.
Proof.
  intros Hc.
  assert (H7 : c = "&"%char \/ c = "="%char \/ c = "#"%char \/ c = "?"%char
               \/ c = ascii_of_nat 9 \/ c = ascii_of_nat 13 \/ c = ascii_of_nat 10).
  { destruct Hc as [Hc|Hc].
    - simpl in Hc.
      repeat (match type of Hc with
              | (if Ascii.eqb c ?d then _ else _) = _ =>
                  destruct (Ascii.eqb_spec c d); [by auto 10|]
              end).
      done.
    - simpl in Hc. destruct Hc as [<- | [<- | [<- | []]]]; auto 10. }
  clear Hc.
  destruct H7 as [-> | [-> | [-> | [-> | [-> | [-> | ->]]]]]];
    destruct x as [[] [] [] [] [] [] [] []]; split; reflexivity.
Qed.

(** The text [quote_plus] produces has none of the characters that
    structure a query string. *)
Lemma quote_plus_no_separator (c : ascii) (s : string) :
  Py.mem c "&=#?" = true \/ In c Urllib._UNSAFE_URL_BYTES_TO_REMOVE ->
  Py.mem c (Urllib.quote_plus s) = false.
Proof.
  intros Hc. unfold Urllib.quote_plus. destruct (negb (Py.mem " " s)).
  - induction s as [|x s IH]; [done|]. simpl.
    rewrite mem_app, IH, orb_false_r. by apply quote_byte_no_separator.
  - induction s as [|x s IH]; [done|]. simpl.
    rewrite replace_app, mem_app, IH, orb_false_r. by apply quote_byte_no_separator.
Qed.

Lemma quote_byte_truthy (safe : string) (x : ascii) (rest : string) :
  Py.truthy_str (Urllib.quote_byte safe x +:+ rest) = true.
Proof. unfold Urllib.quote_byte. by destruct (_ || _). Qed.

Lemma quote_plus_truthy (s : string) :
  Py.truthy_str (Urllib.quote_plus s) = Py.truthy_str s.
Proof.
  unfold Urllib.quote_plus. destruct (negb (Py.mem " " s)).
  - destruct s as [|x s]; [done|]. simpl. apply quote_byte_truthy.
  - destruct s as [|x s]; [done|]. simpl. rewrite replace_truthy.
    apply quote_byte_truthy.
Qed.

Lemma split_no_separator (c : ascii) (f : string) :
  Py.mem c f = false -> Py.split c f = [f].
Proof.
  induction f as [|a f IH]; simpl; [done|].
  rewrite (Ascii.eqb_sym a c). destruct (Ascii.eqb c a); [done|].
  intros Hf. by rewrite (IH Hf).
Qed.

Lemma split_app (c : ascii) (f rest : string) :
  Py.mem c f = false -> Py.split c (f +:+ String c rest) = f :: Py.split c rest.
Proof.
  induction f as [|a f IH]; intros Hf.
  - rewrite app_empty_l. simpl. by rewrite Ascii.eqb_refl.
  - rewrite app_cons. simpl in *. rewrite (Ascii.eqb_sym a c).
    destruct (Ascii.eqb c a); [done|]. by rewrite (IH Hf).
Qed.

(** Splitting what [join] put together gives the fields back. *)
Lemma split_join (c : ascii) (fields : list string) :
  fields <> [] ->
  Forall (fun f => Py.mem c f = false) fields ->
  Py.split c (Py.join (String c "") fields) = fields.
Proof.
  induction fields as [|f rest IH]; [done|]. intros _ Hall.
  apply Forall_cons in Hall as [Hf Hrest]. destruct rest as [|g rest].
  - simpl. by apply split_no_separator.
  - change (Py.join (String c "") (f :: g :: rest))
      with (f +:+ String c "" +:+ Py.join (String c "") (g :: rest)).
    rewrite (app_cons c ""), app_empty_l, split_app by done.
    by rewrite IH.
Qed.

Lemma join_truthy (sep f : string) (rest : list string) :
  Py.truthy_str f = true -> Py.truthy_str (Py.join sep (f :: rest)) = true.
Proof.
  intros Hf. destruct rest as [|g rest]; [done|].
  change (Py.join sep (f :: g :: rest)) with (f +:+ sep +:+ Py.join sep (g :: rest)).
  destruct f; [done|]. by rewrite app_cons.
Qed.

(** One encoded field of a query string, read back by [parse_qsl]. *)
Lemma parse_field_encoded (k v : string) :
  Urllib.parse_field (Urllib.quote_plus k +:+ "=" +:+ Urllib.quote_plus v)
  = if Py.truthy_str v then [(k, v)] else [].
Proof.
  unfold Urllib.parse_field.
  rewrite truthy_str_app_r by done. cbn [negb].
  unfold Py.split1.
  rewrite split_first_skip by (apply quote_plus_no_separator; by left).
  rewrite (app_cons "=" ""), app_empty_l. cbn [Py.split_first].
  change (Ascii.eqb "=" "=") with true. cbv iota.
  rewrite app_empty_r, quote_plus_truthy.
  destruct (Py.truthy_str v); [|done]. by rewrite !unquote_quote_plus.
Qed.

Lemma encoded_fields_no_ampersand (options : list (string * scalar)) :
  Forall (fun f => Py.mem "&" f = false)
    (map (fun '(k, v) => Urllib.quote_plus k +:+ "=" +:+ Urllib.quote_plus (py_str v))
         options).
Proof.
  induction options as [|[k v] rest IH]; simpl; constructor; [|done].
  rewrite !mem_app, !quote_plus_no_separator by by left. done.
Qed.

(** X16: [parse_qsl] reads back what [urlencode] wrote: for every options
    dictionary, in order, the pairs of key and text of the value, whatever
    characters they contain (spaces, ampersands, equal and percent signs
    included); only the entries whose value has the empty text are lost,
    since [parse_qsl] drops blank values. *)
Theorem urlencode_then_parse (options : list (string * scalar)) :
  Urllib.parse_qsl (urlencode options)
  = flat_map (fun kv => if Py.truthy_str (py_str kv.2)
                        then [(kv.1, py_str kv.2)] else [])
             options.
Proof.
  unfold Urllib.parse_qsl, urlencode.
  destruct options as [|[k v] rest]; [done|].
  pose proof (encoded_fields_no_ampersand ((k, v) :: rest)) as Hall.
  set (fields := map _ ((k, v) :: rest)) in *.
  assert (Ht : Py.truthy_str (Py.join "&" fields) = true).
  { unfold fields. cbn [map]. apply join_truthy. by apply truthy_str_app_r. }
  rewrite Ht, split_join by done.
  unfold fields. generalize ((k, v) :: rest). intros l.
  induction l as [|[k' v'] l IH]; [done|]. cbn [map flat_map].
  by rewrite parse_field_encoded, IH.
Qed.

(** The query string of a signed upload, read back. *)
Lemma parse_qsl_token (t : string) :
  Urllib.parse_qsl (urlencode [("token", SStr t)])
  = if Py.truthy_str t then [("token", t)] else [].
Proof.
  unfold Urllib.parse_qsl, urlencode. cbn [map Py.join py_str].
  rewrite truthy_str_app_r by done.
  rewrite split_no_separator
    by (rewrite !mem_app, !quote_plus_no_separator by (by left); done).
  cbn [flat_map]. by rewrite parse_field_encoded, app_nil_r.
Qed.

(** ** The target of a signed upload *)

Lemma plain_mem (s : string) (c : ascii) :
  plain s = true -> Py.mem c url_syntax = true -> Py.mem c s = false.
Proof.
  intros Hs Hc. apply (forallb_str_mem _ c _ Hs). by rewrite Hc.
Qed.

Lemma plain_app (s t : string) : plain (s +:+ t) = plain s && plain t.
Proof.
  unfold plain. induction s as [|a s IH]; [done|].
  rewrite app_cons. cbn [Py.forallb_str]. by rewrite IH, andb_assoc.
Qed.

Lemma remove_absent (b : ascii) (s : string) :
  Py.mem b s = false -> Py.remove b s = s.
Proof.
  induction s as [|a s IH]; simpl; [done|].
  rewrite (Ascii.eqb_sym a b). destruct (Ascii.eqb b a); [done|].
  intros Hs. by rewrite (IH Hs).
Qed.

Lemma clean_absent (s : string) :
  (forall b, In b Urllib._UNSAFE_URL_BYTES_TO_REMOVE -> Py.mem b s = false) ->
  clean s = s.
Proof.
  intros Hs. unfold clean. simpl.
  by repeat (rewrite (remove_absent _ s) by (apply Hs; simpl; auto)).
Qed.

Lemma clean_plain (s : string) : plain s = true -> clean s = s.
Proof.
  intros Hs. apply clean_absent. intros b Hb. apply (plain_mem _ _ Hs).
  simpl in Hb. by destruct Hb as [<- | [<- | [<- | []]]].
Qed.

(** A rooted path without URL syntax parses to itself: no scheme, no
    network location, no parameters, query or fragment. *)
Lemma urlparse_plain (c1 c2 : string -> bool) (s : string) :
  plain s = true ->
  Urllib.urlparse c1 c2 (String "/" (String "o" s))
  = Ok {| Urllib.scheme := ""; Urllib.netloc := "";
          Urllib.path := String "/" (String "o" s); Urllib.params := "";
          Urllib.query := ""; Urllib.fragment := "" |}.
Proof.
  intros Hs. unfold Urllib.urlparse, Urllib.urlsplit.
  change (Py.lstrip Urllib._WHATWG_C0_CONTROL_OR_SPACE (String "/" (String "o" s)))
    with (String "/" (String "o" s)).
  change (foldl (fun u b => Py.remove b u) (String "/" (String "o" s))
            Urllib._UNSAFE_URL_BYTES_TO_REMOVE)
    with (String "/" (String "o" (clean s))).
  rewrite (clean_plain s Hs).
  rewrite split_scheme_not_alpha by done.
  change (Py.startswith "//" (String "/" (String "o" s))) with false. cbv iota.
  assert (Hm : forall c, Py.mem c url_syntax = true ->
                 Py.mem c (String "/" (String "o" s)) = false).
  { intros c Hc. change (String "/" (String "o" s)) with ("/o" +:+ s).
    apply plain_mem; [|done]. by rewrite plain_app, Hs. }
  rewrite (proj2 (split_first_none "#" _)) by by apply Hm.
  rewrite (proj2 (split_first_none "?" _)) by by apply Hm.
  change (Urllib.check_nfkc c2 "") with (Ok tt). cbv iota beta.
  rewrite (Hm ";"%char) by done. by rewrite andb_false_r.
Qed.

Lemma signed_upload_target_plain (E : environment) (self : bucket)
    (path token : string) :
  plain (id self +:+ "/" +:+ path) = true ->
  signed_upload_target E self path token
  = "/object/upload/sign/" +:+ id self +:+ "/" +:+ path
      +:+ "?token=" +:+ Urllib.quote_plus token.
Proof.
  intros Hp. unfold signed_upload_target, _get_final_path.
  change ("/object/upload/sign/" +:+ id self +:+ "/" +:+ path)
    with (String "/" (String "o" ("bject/upload/sign/" +:+ id self +:+ "/" +:+ path))).
  rewrite urlparse_plain by by rewrite plain_app, Hp.
  unfold Urllib.geturl, Urllib.urlunparse, Urllib.urlunsplit, urlencode. simpl.
  change (String "/" (String "o" ("bject/upload/sign/" +:+ id self +:+ "/" +:+ path)))
    with ("/object/upload/sign/" +:+ (id self +:+ "/" +:+ path)).
  rewrite !app_assoc_str. reflexivity.
Qed.

(** X17: for a bucket and a path without URL syntax (no question mark,
    number sign, semicolon, tab, carriage return or line feed), the
    request of [upload_to_signed_url] is a PUT to
    [/object/upload/sign/<bucket>/<path>?token=<token>] with the token
    percent-encoded, and the query of that URL read with [parse_qs], as
    [create_signed_upload_url] reads a token, gives the token back
    unchanged, whatever bytes it contains. *)
Theorem signed_upload_carries_the_token (E : environment) (self : bucket)
    (path token : string) (file : payload) (fo : option nat) (w : world)
    (wr : wire_request) :
  plain (id self +:+ "/" +:+ path) = true ->
  sent (upload_to_signed_url E self path token file fo w).2 = sent w ++ [wr] ->
  wr_method wr = "PUT"
  /\ wr_url wr = "/object/upload/sign/" +:+ id self +:+ "/" +:+ path
                 +:+ "?token=" +:+ Urllib.quote_plus token
  /\ (token <> "" ->
      Urllib.parse_qs (url_query (wr_url wr)) !! "token" = Some [token]).
Proof.
  intros Hp Hwr. rewrite upload_to_signed_url_run in Hwr.
  apply upload_outcome_sent in Hwr as (name & data & ctype & _ & _ & _ & -> & _).
  unfold upload_request. cbn [wr_method wr_url].
  rewrite signed_upload_target_plain by done.
  split; [done|]. split; [done|]. intros Ht.
  assert (Hq : url_query ("/object/upload/sign/" +:+ id self +:+ "/" +:+ path
                          +:+ "?token=" +:+ Urllib.quote_plus token)
               = urlencode [("token", SStr token)]).
  { unfold url_query.
    set (pre := "/object/upload/sign/" +:+ id self +:+ "/" +:+ path).
    assert (Heq : "/object/upload/sign/" +:+ id self +:+ "/" +:+ path
                    +:+ "?token=" +:+ Urllib.quote_plus token
                  = pre +:+ "?token=" +:+ Urllib.quote_plus token)
      by (unfold pre; by rewrite !app_assoc_str).
    rewrite Heq. clear Heq.
    assert (Hpre : plain pre = true) by (unfold pre; by rewrite plain_app, Hp).
    rewrite clean_app, (clean_plain _ Hpre).
    rewrite clean_absent.
    - rewrite query_of_skip by (by apply plain_mem).
      unfold query_of.
      rewrite (proj2 (split_first_none "#" _)).
      + reflexivity.
      + rewrite mem_app, quote_plus_no_separator by by left. done.
    - intros b Hb. rewrite mem_app, quote_plus_no_separator by by right.
      simpl in Hb. by destruct Hb as [<- | [<- | [<- | []]]]. }
  rewrite Hq, parse_qs_lookup. unfold query_values.
  rewrite parse_qsl_token. simpl. by destruct token.
Qed.

Lemma signed_upload_carries_the_token_sample :
  exists wr,
    sent (upload_to_signed_url sample_env (sample_bucket (ok_response JNull))
            "dir/a.txt" "t k&=" (FBytes "x") None empty_world).2 = [wr]
    /\ wr_url wr = "/object/upload/sign/b/dir/a.txt?token=t+k%26%3D"
    /\ Urllib.parse_qs (url_query (wr_url wr)) !! "token" = Some ["t k&="].
Proof.
  eexists. split; [reflexivity|].
  edestruct (signed_upload_carries_the_token sample_env
               (sample_bucket (ok_response JNull)) "dir/a.txt" "t k&=" (FBytes "x")
               None empty_world)
    as (_ & Hurl & Htoken).
  - reflexivity.
  - reflexivity.
  - split; [exact Hurl|]. apply Htoken. discriminate.
Defined.

(** ** What an upload returns *)

Lemma upload_outcome_ok (E : environment) (self : bucket) (method url path : string)
    (file : payload) (fo : option nat) (w : world) (r : Response) :
  (upload_outcome E self method url path file fo w).1 = Ok r
  <-> exists wr,
        sent (upload_outcome E self method url path file fo w).2 = sent w ++ [wr]
        /\ transport (_client self) wr = Ok r
        /\ is_success r = true.
Proof.
  destruct (upload_outcome_cases E self method url path file fo w)
    as (w2 & _ & Hsent & _ & _ & [[e ->]|[wr ->]]); cbn [fst snd logged sent].
  - split; [done|]. intros (wr & Hwr & _). rewrite Hsent in Hwr.
    by apply sent_not_grown in Hwr.
  - rewrite Hsent. split.
    + intros [Ht Hs]%answer_ok. eauto.
    + intros (wr' & Hwr & Ht & Hs). apply sent_snoc_inv in Hwr as ->.
      by apply answer_ok.
Qed.

(** X18: an upload returns a response exactly when its request went out
    and the transport answered it with a success status; what it returns
    is then the transport's response itself, with its body neither
    decoded nor looked at. *)
Theorem uploads_return_the_response (E : environment) (self : bucket)
    (path token : string) (file : payload) (fo : option nat) (w : world)
    (r : Response) :
  ((upload E self path file fo w).1 = Ok r
   <-> exists wr,
         sent (upload E self path file fo w).2 = sent w ++ [wr]
         /\ transport (_client self) wr = Ok r
         /\ is_success r = true)
  /\ ((upload_to_signed_url E self path token file fo w).1 = Ok r
      <-> exists wr,
            sent (upload_to_signed_url E self path token file fo w).2 = sent w ++ [wr]
            /\ transport (_client self) wr = Ok r
            /\ is_success r = true).
Proof.
  rewrite upload_run, upload_to_signed_url_run. split; apply upload_outcome_ok.
Qed.
